(** * vscode-jsonnet: the preview extension ([src/client/extension.ts])

    A shallow embedding of the extension's glue code: configuration lookup,
    the shell command handed to the external compiler, HTML assembly, the
    preview URI scheme and the command wiring.

    The editor host (the [vscode] module), the process runner
    ([child_process.execSync]), [JSON], [js-yaml] and [os] are not part of
    the extension.  They appear here as the interface [HostApi]; everything
    proved below holds for every implementation of that interface.  The
    mutable parts of the host that the extension reads or writes (the
    configuration store, the active editor, the module-level variable
    [jsonnet.executable], and logs of the messages shown, events fired,
    commands dispatched and processes spawned) form the record [World],
    threaded through a small state-and-exception monad. *)

From Stdlib Require Import String Ascii List Bool Arith ZArith DecimalString Lia.
Import ListNotations.
Local Open Scope string_scope.

(** ** Strings *)

(** [contains needle hay]: [needle] occurs in [hay] as a contiguous piece. *)
Definition contains (needle hay : string) : Prop :=
  exists before after, hay = before ++ needle ++ after.

(** The one-character string holding a double quote (code 34). *)
Definition dquote : string := String (ascii_of_nat 34) EmptyString.

(** [Array.prototype.join] on an array of strings. *)
Fixpoint join (sep : string) (parts : list string) : string :=
  match parts with
  | [] => ""
  | [p] => p
  | p :: rest => p ++ sep ++ join sep rest
  end.

(** ** Data model *)

(** [vs.Uri]: the five components of a URI, each held decoded. *)
Record Uri := mkUri {
  scheme : string;
  authority : string;
  path : string;
  query : string;
  fragment : string
}.

(** The argument of [Uri.with]: a component left out ([None]) is kept. *)
Record UriChange := mkUriChange {
  ch_scheme : option string;
  ch_authority : option string;
  ch_path : option string;
  ch_query : option string;
  ch_fragment : option string
}.

(** The components [Uri.with] puts together. *)
Definition Uri_replace (u : Uri) (change : UriChange) : Uri :=
  let pick (c : option string) (old : string) :=
    match c with Some s => s | None => old end in
  {| scheme := pick (ch_scheme change) (scheme u);
     authority := pick (ch_authority change) (authority u);
     path := pick (ch_path change) (path u);
     query := pick (ch_query change) (query u);
     fragment := pick (ch_fragment change) (fragment u) |}.

Definition Uri_eqb (a b : Uri) : bool :=
  String.eqb (scheme a) (scheme b)
  && String.eqb (authority a) (authority b)
  && String.eqb (path a) (path b)
  && String.eqb (query a) (query b)
  && String.eqb (fragment a) (fragment b).

(** [vs.ViewColumn], a numeric enum with members One = 1, Two = 2, Three = 3. *)
Inductive ViewColumn := One | Two | Three.

Definition ViewColumn_value (c : ViewColumn) : nat :=
  match c with One => 1 | Two => 2 | Three => 3 end.

(** The largest column the editor offers. *)
Definition ViewColumn_max : nat := 3.

Definition ViewColumn_of_value (n : nat) : option ViewColumn :=
  match n with
  | 1 => Some One
  | 2 => Some Two
  | 3 => Some Three
  | _ => None
  end.

(** The members of [vs.TextDocument] the extension reads. *)
Record TextDocument := mkTextDocument {
  uri : Uri;
  fileName : string;
  languageId : string
}.

(** [vs.TextEditor]; [viewColumn] may be [undefined]. *)
Record TextEditor := mkTextEditor {
  document : TextDocument;
  viewColumn : option ViewColumn
}.

(** The settings under the [jsonnet] section.  [None] stands for a setting
    that is [null] or [undefined]; [cfg_extStrs] lists the own properties
    of the settings object in enumeration order, each value as the text a
    template literal makes of it. *)
Record WorkspaceConfiguration := mkConfiguration {
  cfg_executablePath : option string;
  cfg_extStrs : option (list (string * string));
  cfg_outputFormat : string
}.

(** One call of [vs.commands.executeCommand] as [previewJsonnet] makes it. *)
Record CommandCall := mkCommandCall {
  command : string;
  cmd_uri : Uri;
  cmd_column : option ViewColumn;
  cmd_title : string
}.

(** A thrown JavaScript [Error]; only its [message] is ever read. *)
Record Error := mkError { message : string }.

(** The completion of a statement: it returns normally or it throws.  A
    rejected promise is a [Throw] as well. *)
Inductive Completion (A : Type) : Type :=
| Normal (a : A)
| Throw (e : Error).
Arguments Normal {A} a.
Arguments Throw {A} e.

(** ** The host *)

Class HostApi := {
  (** the values [JSON.parse] produces *)
  JsValue : Type;
  (** [os.type()] *)
  os_type : string;
  (** [execSync(command).toString()]: the captured stdout, or the thrown
      error when the process cannot be spawned or exits non-zero *)
  execSync : string -> Completion string;
  (** [JSON.parse(text)], throwing a [SyntaxError] on malformed text *)
  JSON_parse : string -> Completion JsValue;
  (** [JSON.stringify(value, null, space)] *)
  JSON_stringify : JsValue -> nat -> string;
  (** [yaml.safeDump(value)] *)
  yaml_safeDump : JsValue -> Completion string;
  (** [uri.toString()] *)
  Uri_toString : Uri -> string;
  (** [vs.Uri.parse(text)], throwing on text whose components the host
      does not accept *)
  Uri_parse : string -> Completion Uri;
  (** the check the host runs on the components of a URI it builds: the
      error it throws for them, if any *)
  Uri_validate : Uri -> option Error;
  (** [vs.workspace.openTextDocument(uri)] *)
  openTextDocument : Uri -> Completion TextDocument;
  (** the promise [vs.commands.executeCommand] returns: resolved, or
      rejected with a reason *)
  executeCommand : CommandCall -> Completion unit
}.

(** [uri.with(change)]: the URI itself when nothing changes; otherwise the
    host builds the changed URI and checks it, and throws when the check
    fails.  (Some hosts also put a slash before a relative path under the
    schemes http, https and file; the extension asks for none of these
    schemes.) *)
Definition Uri_with `{HostApi} (u : Uri) (change : UriChange) : Completion Uri :=
  let changed := Uri_replace u change in
  if Uri_eqb changed u then Normal u
  else
    match Uri_validate changed with
    | Some e => Throw e
    | None => Normal changed
    end.

(** ** The mutable world *)

Record World := mkWorld {
  (** [vs.workspace.getConfiguration('jsonnet')] *)
  configuration : WorkspaceConfiguration;
  (** [vs.window.activeTextEditor] *)
  activeTextEditor : option TextEditor;
  (** the module-level [jsonnet.executable] *)
  executable : string;
  (** texts passed to [vs.window.showErrorMessage], oldest first *)
  errorMessages : list string;
  (** URIs fired on the provider's [_onDidChange] emitter, oldest first *)
  changeEvents : list Uri;
  (** calls of [vs.commands.executeCommand], oldest first *)
  dispatched : list CommandCall;
  (** command lines passed to [execSync], oldest first *)
  spawned : list string
}.

Definition set_configuration (c : WorkspaceConfiguration) (w : World) : World :=
  mkWorld c (activeTextEditor w) (executable w) (errorMessages w)
          (changeEvents w) (dispatched w) (spawned w).

Definition set_executable (e : string) (w : World) : World :=
  mkWorld (configuration w) (activeTextEditor w) e (errorMessages w)
          (changeEvents w) (dispatched w) (spawned w).

Definition add_errorMessage (m : string) (w : World) : World :=
  mkWorld (configuration w) (activeTextEditor w) (executable w)
          (errorMessages w ++ [m]) (changeEvents w) (dispatched w) (spawned w).

Definition add_changeEvent (u : Uri) (w : World) : World :=
  mkWorld (configuration w) (activeTextEditor w) (executable w)
          (errorMessages w) (changeEvents w ++ [u]) (dispatched w) (spawned w).

Definition add_dispatched (c : CommandCall) (w : World) : World :=
  mkWorld (configuration w) (activeTextEditor w) (executable w)
          (errorMessages w) (changeEvents w) (dispatched w ++ [c]) (spawned w).

Definition add_spawned (c : string) (w : World) : World :=
  mkWorld (configuration w) (activeTextEditor w) (executable w)
          (errorMessages w) (changeEvents w) (dispatched w) (spawned w ++ [c]).

(** The state of a freshly loaded extension: [jsonnet.executable] holds
    its initialiser and nothing has happened yet. *)
Definition initial_World (c : WorkspaceConfiguration)
    (editor : option TextEditor) : World :=
  mkWorld c editor "jsonnet" [] [] [] [].

(** ** Statements: state passing with exceptions

    A statement maps the world before it to its completion and the world
    after it; what a statement did before throwing stays done. *)
Definition M (A : Type) : Type := World -> Completion A * World.

Definition ret {A} (a : A) : M A := fun w => (Normal a, w).

Definition bind {A B} (m : M A) (k : A -> M B) : M B :=
  fun w =>
    match m w with
    | (Normal a, w') => k a w'
    | (Throw e, w') => (Throw e, w')
    end.

(** [try { body } catch (e) { handler e }] *)
Definition try_catch {A} (body : M A) (handler : Error -> M A) : M A :=
  fun w =>
    match body w with
    | (Normal a, w') => (Normal a, w')
    | (Throw e, w') => handler e w'
    end.

(** A host call that touches no state. *)
Definition lift {A} (c : Completion A) : M A := fun w => (c, w).

Definition gets {A} (f : World -> A) : M A := fun w => (Normal (f w), w).

Definition modify (f : World -> World) : M unit := fun w => (Normal tt, f w).

Declare Scope js_scope.
Delimit Scope js_scope with js.
Notation "x <- m ;; k" := (bind m (fun x => k))
  (at level 61, m at next level, right associativity) : js_scope.
Notation "m ;;; k" := (bind m (fun _ => k))
  (at level 61, right associativity) : js_scope.
Local Open Scope js_scope.

(** [execSync(command).toString()], recorded in [spawned]. *)
Definition run_execSync `{HostApi} (cmd : string) : M string :=
  modify (add_spawned cmd) ;;; lift (execSync cmd).

(** [vs.commands.executeCommand(...)], recorded in [dispatched]. *)
Definition run_executeCommand `{HostApi} (c : CommandCall) : M unit :=
  modify (add_dispatched c) ;;; lift (executeCommand c).

(** ** namespace alert *)
Module alert.

(** [const alert = vs.window.showErrorMessage] *)
Definition alert (text : string) : M unit := modify (add_errorMessage text).

Definition noActiveWindow : M unit :=
  alert "Can't open Jsonnet preview because there is no active window".

Definition documentNotJsonnet (languageId : string) : M unit :=
  alert ("Can't generate Jsonnet document preview for document with language id '"
         ++ languageId ++ "'").

Definition couldNotRenderJsonnet (reason : string) : M unit :=
  alert ("Error: Could not render Jsonnet; " ++ reason).

Definition jsonnetCommandNotOnPath : M unit :=
  alert "Error: could not find 'jsonnet' command on path".

Definition jsonnetCommandIsNull : M unit :=
  alert "Error: 'jsonnet.executablePath' must be set in vscode settings".

End alert.

(** ** namespace workspace *)
Module workspace.

(** The value of [extStrsObj[key]], coerced by the template literal. *)
Fixpoint property (obj : list (string * string)) (key : string) : string :=
  match obj with
  | [] => "undefined"
  | (k, v) :: rest => if String.eqb k key then v else property rest key
  end.

Definition extStrs : M string :=
  extStrsObj <- gets (fun w => cfg_extStrs (configuration w)) ;;
  ret match extStrsObj with
      | None => ""
      | Some extStrsObj =>
          join " "
            (map (fun key =>
                    "--ext-str " ++ key ++ "=" ++ dquote
                      ++ property extStrsObj key ++ dquote)
                 (map fst extStrsObj))
      end.

Definition outputFormat : M string :=
  gets (fun w => cfg_outputFormat (configuration w)).

Definition configureUnix `{HostApi} (config : WorkspaceConfiguration) : M bool :=
  match cfg_executablePath config with
  | Some p => modify (set_executable p) ;;; ret true
  | None =>
      try_catch
        (run_execSync "which jsonnet" ;;; ret true)
        (fun e => alert.jsonnetCommandNotOnPath ;;; ret false)
  end.

Definition configureWindows (config : WorkspaceConfiguration) : M bool :=
  match cfg_executablePath config with
  | None => alert.jsonnetCommandIsNull ;;; ret false
  | Some p => modify (set_executable p) ;;; ret true
  end.

Definition configure `{HostApi} (config : WorkspaceConfiguration) : M bool :=
  if String.eqb os_type "Windows_NT"
  then configureWindows config
  else configureUnix config.

End workspace.

(** ** namespace html *)
Module html.

Definition body (body : string) : string :=
  "<html><body>" ++ body ++ "</body></html>".

Definition codeLiteral (code : string) : string :=
  "<pre><code>" ++ code ++ "</code></pre>".

Definition errorMessage (message : string) : string :=
  "<i><pre>" ++ message ++ "</pre></i>".

Definition prettyPrintObject `{HostApi} (json outputFormat : string) : M string :=
  if String.eqb outputFormat "yaml" then
    parsed <- lift (JSON_parse json) ;;
    dumped <- lift (yaml_safeDump parsed) ;;
    ret (codeLiteral dumped)
  else
    parsed <- lift (JSON_parse json) ;;
    ret (codeLiteral (JSON_stringify parsed 4)).

End html.

(** ** namespace jsonnet

    The module-level [jsonnet.executable] is the field [executable] of
    [World]; its initialiser is in [initial_World]. *)
Module jsonnet.

Definition PREVIEW_SCHEME : string := "jsonnet-preview".

Definition canonicalPreviewUri `{HostApi} (fileUri : Uri) : Completion Uri :=
  Uri_with fileUri
    {| ch_scheme := Some PREVIEW_SCHEME;
       ch_authority := None;
       ch_path := Some (path fileUri ++ ".rendered");
       ch_query := Some (Uri_toString fileUri);
       ch_fragment := None |}.

(** *** class DocumentProvider *)
Module DocumentProvider.

Definition renderDocument `{HostApi} (document : TextDocument) : M string :=
  try_catch
    (extStrs <- workspace.extStrs ;;
     outputFormat <- workspace.outputFormat ;;
     exe <- gets executable ;;
     jsonOutput <- run_execSync (exe ++ " " ++ extStrs ++ " " ++ fileName document) ;;
     pretty <- html.prettyPrintObject jsonOutput outputFormat ;;
     ret (html.body pretty))
    (fun e => ret (html.body (html.errorMessage (message e)))).

(** [const sourceUri = vs.Uri.parse(uri.query)] *)
Definition sourceUri `{HostApi} (uri : Uri) : Completion Uri :=
  Uri_parse (query uri).

(** [openTextDocument(sourceUri).then(this.renderDocument)]: when the
    parse throws nothing is opened, and a rejected open skips the
    rendering and rejects the result. *)
Definition provideTextDocumentContent `{HostApi} (uri : Uri) : M string :=
  source <- lift (sourceUri uri) ;;
  document <- lift (openTextDocument source) ;;
  renderDocument document.

(** [this._onDidChange.fire(uri)] *)
Definition update (uri : Uri) : M unit := modify (add_changeEvent uri).

End DocumentProvider.

End jsonnet.

(** ** namespace display *)
Module display.

Definition getViewColumn (sideBySide : bool) : M (option ViewColumn) :=
  active <- gets activeTextEditor ;;
  match active with
  | None => ret (Some One)
  | Some active =>
      if negb sideBySide then ret (viewColumn active)
      else
        match viewColumn active with
        | Some One => ret (Some Two)
        | Some Two => ret (Some Three)
        | _ => ret (viewColumn active)
        end
  end.

(** The arguments of [executeCommand] are evaluated in order, the preview
    URI first: a throw of [canonicalPreviewUri] leaves [previewJsonnet]
    before anything is dispatched.  The rejection handler receives the
    reason; its text is the [message] of the completion's error. *)
Definition previewJsonnet `{HostApi} (sideBySide : bool) : M unit :=
  editor <- gets activeTextEditor ;;
  match editor with
  | None => alert.noActiveWindow
  | Some editor =>
      let languageId := languageId (document editor) in
      if negb (String.eqb languageId "jsonnet")
      then alert.documentNotJsonnet languageId
      else
        previewUri <- lift (jsonnet.canonicalPreviewUri (uri (document editor))) ;;
        column <- getViewColumn sideBySide ;;
        try_catch
          (run_executeCommand
             {| command := "vscode.previewHtml";
                cmd_uri := previewUri;
                cmd_column := column;
                cmd_title := "Jsonnet property preview" |})
          (fun reason => alert.couldNotRenderJsonnet (message reason))
  end.

End display.

(** ** activate: what the extension registers with the host *)

(** The first statement of [activate]; the result of [configure] is
    dropped. *)
Definition activate `{HostApi} : M unit :=
  config <- gets configuration ;;
  workspace.configure config ;;;
  ret tt.

(** The commands [jsonnet.previewToSide] and [jsonnet.preview]. *)
Definition command_previewToSide `{HostApi} : M unit := display.previewJsonnet true.
Definition command_preview `{HostApi} : M unit := display.previewJsonnet false.

(** The callback given to [vs.workspace.onDidSaveTextDocument]; the
    preview URI is computed before [update] is called. *)
Definition onDidSaveTextDocument `{HostApi} (document : TextDocument) : M unit :=
  previewUri <- lift (jsonnet.canonicalPreviewUri (uri document)) ;;
  jsonnet.DocumentProvider.update previewUri.

(** ** A test double of the host

    A small, executable implementation of [HostApi], for running the
    extension on concrete inputs: a compiler with canned answers, JSON
    over integers, strings, arrays and objects, URIs printed without
    percent-encoding.  It stands in for the real host in examples only;
    no general theorem below depends on it. *)
Module Stub.

#[warnings="-register-all"]
Inductive Json :=
| JNull
| JBool (b : bool)
| JNumber (n : Z)
| JString (s : string)
| JArray (items : list Json)
| JObject (props : list (string * Json)).

Definition newline : string := String (ascii_of_nat 10) EmptyString.

Fixpoint spaces (n : nat) : string :=
  match n with
  | O => ""
  | S n' => " " ++ spaces n'
  end.

Definition hex_digit (n : nat) : ascii :=
  nth n (list_ascii_of_string "0123456789abcdef") "0"%char.

(** The escape of one character inside a JSON string. *)
Definition quote_char (c : ascii) : string :=
  let n := nat_of_ascii c in
  if Nat.eqb n 34 then "\" ++ dquote
  else if Nat.eqb n 92 then "\\"
  else if Nat.eqb n 8 then "\b"
  else if Nat.eqb n 9 then "\t"
  else if Nat.eqb n 10 then "\n"
  else if Nat.eqb n 12 then "\f"
  else if Nat.eqb n 13 then "\r"
  else if Nat.ltb n 32 then
    "\u00" ++ String (hex_digit (n / 16)) (String (hex_digit (n mod 16)) "")
  else String c "".

Fixpoint quote_body (s : string) : string :=
  match s with
  | EmptyString => ""
  | String c rest => quote_char c ++ quote_body rest
  end.

Definition quote (s : string) : string := dquote ++ quote_body s ++ dquote.

(** The text of an array or object from the texts of its members. *)
Definition wrap (opening closing gap stepback indent : string)
    (partial : list string) : string :=
  match partial with
  | [] => opening ++ closing
  | _ =>
      if String.eqb gap "" then opening ++ join "," partial ++ closing
      else opening ++ newline ++ indent
           ++ join ("," ++ newline ++ indent) partial
           ++ newline ++ stepback ++ closing
  end.

Fixpoint serialize (gap indent : string) (value : Json) : string :=
  match value with
  | JNull => "null"
  | JBool true => "true"
  | JBool false => "false"
  | JNumber n => NilZero.string_of_int (Z.to_int n)
  | JString s => quote s
  | JArray items =>
      wrap "[" "]" gap indent (indent ++ gap)
           (map (serialize gap (indent ++ gap)) items)
  | JObject props =>
      wrap "{" "}" gap indent (indent ++ gap)
           (map (fun p =>
                   quote (fst p) ++ ":"
                   ++ (if String.eqb gap "" then "" else " ")
                   ++ serialize gap (indent ++ gap) (snd p))
                props)
  end.

Definition stringify (value : Json) (space : nat) : string :=
  serialize (spaces (Nat.min space 10)) "" value.

(** *** Reading JSON text *)

Definition is_space (c : ascii) : bool :=
  let n := nat_of_ascii c in
  Nat.eqb n 32 || Nat.eqb n 9 || Nat.eqb n 10 || Nat.eqb n 13.

Definition is_digit (c : ascii) : bool :=
  let n := nat_of_ascii c in Nat.leb 48 n && Nat.leb n 57.

Fixpoint skip_space (s : list ascii) : list ascii :=
  match s with
  | c :: rest => if is_space c then skip_space rest else s
  | [] => []
  end.

Fixpoint read_digits (acc : Z) (s : list ascii) : Z * list ascii :=
  match s with
  | c :: rest =>
      if is_digit c
      then read_digits (10 * acc + Z.of_nat (nat_of_ascii c - 48)) rest
      else (acc, s)
  | [] => (acc, [])
  end.

(** The characters up to the closing quote; of the escapes only the
    escaped quote and the escaped backslash are read. *)
Fixpoint read_string (s : list ascii) : option (string * list ascii) :=
  match s with
  | [] => None
  | c :: rest =>
      if Nat.eqb (nat_of_ascii c) 34 then Some ("", rest)
      else if Nat.eqb (nat_of_ascii c) 92 then
        match rest with
        | e :: rest' =>
            match read_string rest' with
            | Some (body, after) => Some (String e body, after)
            | None => None
            end
        | [] => None
        end
      else
        match read_string rest with
        | Some (body, after) => Some (String c body, after)
        | None => None
        end
  end.

Fixpoint read_value (fuel : nat) (s : list ascii) : option (Json * list ascii) :=
  match fuel with
  | O => None
  | S fuel' =>
      match skip_space s with
      | "n" :: "u" :: "l" :: "l" :: rest => Some (JNull, rest)
      | "t" :: "r" :: "u" :: "e" :: rest => Some (JBool true, rest)
      | "f" :: "a" :: "l" :: "s" :: "e" :: rest => Some (JBool false, rest)
      | "[" :: rest =>
          match skip_space rest with
          | "]" :: after => Some (JArray [], after)
          | _ =>
              match read_items fuel' rest with
              | Some (items, after) => Some (JArray items, after)
              | None => None
              end
          end
      | "{" :: rest =>
          match skip_space rest with
          | "}" :: after => Some (JObject [], after)
          | _ =>
              match read_props fuel' rest with
              | Some (props, after) => Some (JObject props, after)
              | None => None
              end
          end
      | "-" :: c :: rest =>
          if is_digit c
          then let (n, after) := read_digits 0 (c :: rest) in
               Some (JNumber (- n), after)
          else None
      | c :: rest =>
          if Nat.eqb (nat_of_ascii c) 34 then
            match read_string rest with
            | Some (body, after) => Some (JString body, after)
            | None => None
            end
          else if is_digit c
          then let (n, after) := read_digits 0 (c :: rest) in
               Some (JNumber n, after)
          else None
      | [] => None
      end
  end%char
with read_items (fuel : nat) (s : list ascii) : option (list Json * list ascii) :=
  match fuel with
  | O => None
  | S fuel' =>
      match read_value fuel' s with
      | Some (item, after) =>
          match skip_space after with
          | "," :: more =>
              match read_items fuel' more with
              | Some (items, rest) => Some (item :: items, rest)
              | None => None
              end
          | "]" :: rest => Some ([item], rest)
          | _ => None
          end
      | None => None
      end
  end%char
with read_props (fuel : nat) (s : list ascii)
    : option (list (string * Json) * list ascii) :=
  match fuel with
  | O => None
  | S fuel' =>
      match skip_space s with
      | q :: rest =>
          if Nat.eqb (nat_of_ascii q) 34 then
            match read_string rest with
            | Some (key, after_key) =>
                match skip_space after_key with
                | ":" :: after_colon =>
                    match read_value fuel' after_colon with
                    | Some (item, after) =>
                        match skip_space after with
                        | "," :: more =>
                            match read_props fuel' more with
                            | Some (props, rest) => Some ((key, item) :: props, rest)
                            | None => None
                            end
                        | "}" :: rest => Some ([(key, item)], rest)
                        | _ => None
                        end
                    | None => None
                    end
                | _ => None
                end
            | None => None
            end
          else None
      | [] => None
      end
  end%char.

Definition parse (text : string) : Completion Json :=
  let s := list_ascii_of_string text in
  match read_value (S (List.length s)) s with
  | Some (value, rest) =>
      match skip_space rest with
      | [] => Normal value
      | _ => Throw (mkError "Unexpected token in JSON")
      end
  | None => Throw (mkError "Unexpected token in JSON")
  end.

(** The stand-in for [yaml.safeDump] emits the flow style, in which a
    JSON text is a YAML document. *)
Definition dump (value : Json) : Completion string :=
  Normal (stringify value 0 ++ newline).

(** *** URIs as text, without percent-encoding

    As the editor does, the printer writes a drive letter at the start of
    a path in lower case, and the check refuses a scheme with characters
    outside letters, digits, underscore, plus, dot and minus, a path that
    does not start with a slash beside an authority, and a path that
    starts with two slashes beside no authority. *)

Definition lower (c : ascii) : ascii :=
  let n := nat_of_ascii c in
  if Nat.leb 65 n && Nat.leb n 90 then ascii_of_nat (n + 32) else c.

Definition lower_drive (p : string) : string :=
  match p with
  | String "/" (String d (String ":" rest)) =>
      String "/" (String (lower d) (String ":" rest))
  | String d (String ":" rest) => String (lower d) (String ":" rest)
  | _ => p
  end.

Definition is_word (c : ascii) : bool :=
  let n := nat_of_ascii c in
  (Nat.leb 48 n && Nat.leb n 57) || (Nat.leb 65 n && Nat.leb n 90)
  || (Nat.leb 97 n && Nat.leb n 122) || Nat.eqb n 95.

Definition scheme_ok (s : string) : bool :=
  match s with
  | EmptyString => true
  | String c rest =>
      is_word c
      && forallb (fun c => is_word c || Nat.eqb (nat_of_ascii c) 43
                           || Nat.eqb (nat_of_ascii c) 45
                           || Nat.eqb (nat_of_ascii c) 46)
           (list_ascii_of_string rest)
  end.

Definition invalid (u : Uri) : option Error :=
  if negb (scheme_ok (scheme u))
  then Some (mkError "[UriError]: Scheme contains illegal characters.")
  else if String.eqb (path u) "" then None
  else if negb (String.eqb (authority u) "") then
    if prefix "/" (path u) then None
    else Some (mkError "[UriError]: with an authority the path must be empty or begin with a slash")
  else if prefix "//" (path u)
  then Some (mkError "[UriError]: without an authority the path cannot begin with two slashes")
  else None.

Definition print_uri (u : Uri) : string :=
  (if String.eqb (scheme u) "" then "" else scheme u ++ ":")
  ++ (if negb (String.eqb (authority u) "") || String.eqb (scheme u) "file"
      then "//" else "")
  ++ authority u
  ++ lower_drive (path u)
  ++ (if String.eqb (query u) "" then "" else "?" ++ query u)
  ++ (if String.eqb (fragment u) "" then "" else "#" ++ fragment u).

(** [span stop s]: [s] cut before its first character in [stop]. *)
Fixpoint span (stop : ascii -> bool) (s : string) : string * string :=
  match s with
  | EmptyString => ("", "")
  | String c rest =>
      if stop c then ("", s)
      else let (front, back) := span stop rest in (String c front, back)
  end.

Definition one_of (chars : string) (c : ascii) : bool :=
  existsb (Ascii.eqb c) (list_ascii_of_string chars).

Definition read_uri (text : string) : Completion Uri :=
  let (scheme, after_scheme) :=
    match span (one_of ":/?#") text with
    | (String c front, String ":" back) => (String c front, back)
    | _ => ("", text)
    end in
  let (authority, after_authority) :=
    match after_scheme with
    | String "/" (String "/" back) => span (one_of "/?#") back
    | _ => ("", after_scheme)
    end in
  let (path, after_path) := span (one_of "?#") after_authority in
  let (query, after_query) :=
    match after_path with
    | String "?" back => span (one_of "#") back
    | _ => ("", after_path)
    end in
  let fragment :=
    match after_query with
    | String "#" back => back
    | _ => ""
    end in
  let read := mkUri scheme authority path query fragment in
  match invalid read with
  | Some e => Throw e
  | None => Normal read
  end.

(** *** Canned processes *)

(** The text the canned compiler prints for [/work/ok.jsonnet]. *)
Definition ok_output : string :=
  "{" ++ quote "a" ++ ": 1, " ++ quote "b" ++ ": [true, null]}".

(** A machine with [jsonnet] on the search path: it compiles
    [/work/ok.jsonnet], prints text that is not JSON for
    [/work/text.jsonnet], and fails with the message boom on every other
    file. *)
Definition installed (command : string) : Completion string :=
  if String.eqb command "which jsonnet" then Normal ("/usr/bin/jsonnet" ++ newline)
  else if String.eqb command "jsonnet  /work/ok.jsonnet" then Normal ok_output
  else if String.eqb command "jsonnet  /work/text.jsonnet" then Normal "hello"
  else Throw (mkError "boom").

(** A machine on which every command fails. *)
Definition missing (command : string) : Completion string :=
  Throw (mkError ("Command failed: " ++ command)).

(** Every [file] URI opens as a jsonnet document named by its path. *)
Definition open (u : Uri) : Completion TextDocument :=
  if String.eqb (scheme u) "file"
  then Normal (mkTextDocument u (path u) "jsonnet")
  else Throw (mkError "cannot open").

Definition host (os : string) (run : string -> Completion string) : HostApi :=
  {| JsValue := Json;
     os_type := os;
     execSync := run;
     JSON_parse := parse;
     JSON_stringify := stringify;
     yaml_safeDump := dump;
     Uri_toString := print_uri;
     Uri_parse := read_uri;
     Uri_validate := invalid;
     openTextDocument := open;
     executeCommand := fun _ => Normal tt |}.

Definition linux : HostApi := host "Linux" installed.
Definition linux_bare : HostApi := host "Linux" missing.
Definition windows : HostApi := host "Windows_NT" installed.

(** Sample documents and settings. *)
Definition file_uri (p : string) : Uri := mkUri "file" "" p "" "".

Definition doc (p : string) : TextDocument :=
  mkTextDocument (file_uri p) p "jsonnet".

Definition settings (format : string) : WorkspaceConfiguration :=
  mkConfiguration None None format.

End Stub.

(** * Vocabulary of the statements *)

(** One binding as a compiler argument: the flag, the name, and the value
    between double quotes. *)
Definition ext_str_argument (binding : string * string) : string :=
  "--ext-str " ++ fst binding ++ "=" ++ dquote ++ snd binding ++ dquote.

(** The page the [catch] clause of [renderDocument] returns for [e]. *)
Definition error_page (e : Error) : string :=
  html.body (html.errorMessage (message e)).

(** The page [renderDocument] returns for formatted output [text]. *)
Definition code_page (text : string) : string :=
  html.body (html.codeLiteral text).

(** Rendering [document] in [w] returns the error page for [e], which
    shows the message of [e]. *)
Definition renders_error `{HostApi} (document : TextDocument) (w : World)
    (e : Error) : Prop :=
  fst (jsonnet.DocumentProvider.renderDocument document w)
  = Normal (html.body (html.errorMessage (message e)))
  /\ contains (message e) (html.body (html.errorMessage (message e))).

(** [configure config] in [w] answers [ok] and leaves [exe] in
    [jsonnet.executable], [messages] as the error messages shown so far
    and [probes] as the processes spawned so far. *)
Definition configures `{HostApi} (config : WorkspaceConfiguration) (w : World)
    (ok : bool) (exe : string) (messages probes : list string) : Prop :=
  let w' := snd (workspace.configure config w) in
  fst (workspace.configure config w) = Normal ok
  /\ executable w' = exe
  /\ errorMessages w' = messages
  /\ spawned w' = probes.

(** [previewJsonnet] stops in [w] after showing [warning]: the message
    is the one thing added to the world. *)
Definition aborts_with `{HostApi} (sideBySide : bool) (w : World)
    (warning : string) : Prop :=
  let w' := snd (display.previewJsonnet sideBySide w) in
  display.previewJsonnet sideBySide w = (Normal tt, add_errorMessage warning w)
  /\ errorMessages w' = (errorMessages w ++ [warning])%list
  /\ dispatched w' = dispatched w
  /\ spawned w' = spawned w
  /\ changeEvents w' = changeEvents w.

(** * Sample worlds for the test double *)

(** A freshly loaded extension with no settings and no editor. *)
Definition fresh (format : string) : World :=
  initial_World (Stub.settings format) None.

(** An editor showing a document of the given language in a column. *)
Definition editing (language : string) (column : ViewColumn) : World :=
  initial_World (Stub.settings "json")
    (Some (mkTextEditor
             (mkTextDocument (Stub.file_uri "/work/ok.jsonnet")
                "/work/ok.jsonnet" language)
             (Some column))).

(** The compiled value of [/work/ok.jsonnet]. *)
Definition ok_value : Stub.Json :=
  Stub.JObject [("a", Stub.JNumber 1);
                ("b", Stub.JArray [Stub.JBool true; Stub.JNull])].

(** The same value printed with an indentation of four spaces. *)
Definition ok_pretty : string :=
  "{" ++ Stub.newline
  ++ "    " ++ Stub.quote "a" ++ ": 1," ++ Stub.newline
  ++ "    " ++ Stub.quote "b" ++ ": [" ++ Stub.newline
  ++ "        true," ++ Stub.newline
  ++ "        null" ++ Stub.newline
  ++ "    ]" ++ Stub.newline
  ++ "}".



(** Settings that name the compiler. *)
Definition with_path (p : string) : WorkspaceConfiguration :=
  mkConfiguration (Some p) None "json".

(** The world after activation under [at_activation] and a later change
    of the settings to [changed]. *)
Definition at_activation : WorkspaceConfiguration := with_path "/opt/a/jsonnet".
Definition changed : WorkspaceConfiguration :=
  mkConfiguration (Some "/opt/b/jsonnet") (Some [("FOO", "bar")]) "yaml".

Definition reconfigured : World :=
  set_configuration changed
    (snd (@activate Stub.linux (initial_World at_activation None))).

(** * The extension as the host drives it *)

(** The entry points [activate] registers: the two commands, the save
    subscriber and the content provider. *)
Inductive Callback :=
| CommandPreviewToSide
| CommandPreview
| DidSaveTextDocument (document : TextDocument)
| ProvideTextDocumentContent (uri : Uri).

(** One call from the host; the page a provider call returns goes to the
    host and is dropped here. *)
Definition call `{HostApi} (c : Callback) : M unit :=
  match c with
  | CommandPreviewToSide => command_previewToSide
  | CommandPreview => command_preview
  | DidSaveTextDocument document => onDidSaveTextDocument document
  | ProvideTextDocumentContent uri =>
      jsonnet.DocumentProvider.provideTextDocumentContent uri ;;; ret tt
  end.

(** The host makes its calls one after another; a call that ends in a
    rejection does not keep the later ones from running. *)
Fixpoint run_callbacks `{HostApi} (calls : list Callback) (w : World) : World :=
  match calls with
  | [] => w
  | c :: rest => run_callbacks rest (snd (call c w))
  end.

(** The preview URIs of the documents saved in [calls], in order, leaving
    out the saves whose preview URI the host refuses to build. *)
Fixpoint saved_previews `{HostApi} (calls : list Callback) : list Uri :=
  match calls with
  | [] => []
  | DidSaveTextDocument document :: rest =>
      match jsonnet.canonicalPreviewUri (uri document) with
      | Normal previewUri => previewUri :: saved_previews rest
      | Throw _ => saved_previews rest
      end
  | _ :: rest => saved_previews rest
  end.

(** Whether the host parses the query of [uri] and opens the document it
    names. *)
Definition opens `{HostApi} (uri : Uri) : bool :=
  match jsonnet.DocumentProvider.sourceUri uri with
  | Normal source =>
      match openTextDocument source with
      | Normal _ => true
      | Throw _ => false
      end
  | Throw _ => false
  end.

(** The provider calls in [calls] whose source document the host opens. *)
Fixpoint opened_provides `{HostApi} (calls : list Callback) : nat :=
  match calls with
  | [] => 0
  | ProvideTextDocumentContent uri :: rest =>
      if opens uri then S (opened_provides rest) else opened_provides rest
  | _ :: rest => opened_provides rest
  end.

(** The preview commands in [calls]. *)
Fixpoint preview_commands (calls : list Callback) : nat :=
  match calls with
  | [] => 0
  | CommandPreviewToSide :: rest => S (preview_commands rest)
  | CommandPreview :: rest => S (preview_commands rest)
  | _ :: rest => preview_commands rest
  end.

(** [l] starts with [front]. *)
Definition extends {A} (front l : list A) : Prop := exists more, l = (front ++ more)%list.

(** The world [w] with the external strings of its settings replaced. *)
Definition with_extStrs (bindings : option (list (string * string)))
    (w : World) : World :=
  set_configuration
    (mkConfiguration (cfg_executablePath (configuration w)) bindings
       (cfg_outputFormat (configuration w)))
    w.

(** The command line a render of [document] spawns in [w]. *)
Definition render_command (w : World) (document : TextDocument) : string :=
  match fst (workspace.extStrs w) with
  | Normal fragment => executable w ++ " " ++ fragment ++ " " ++ fileName document
  | Throw _ => ""
  end.

(** Whether a preview command would reach [executeCommand] in [w]: past
    its two checks, with a preview URI the host builds. *)
Definition dispatchable `{HostApi} (w : World) : bool :=
  match activeTextEditor w with
  | Some editor =>
      String.eqb (languageId (document editor)) "jsonnet"
      && match jsonnet.canonicalPreviewUri (uri (document editor)) with
         | Normal _ => true
         | Throw _ => false
         end
  | None => false
  end.

(** The URI [canonicalPreviewUri] asks the host to build for [fileUri]. *)
Definition preview_components `{HostApi} (fileUri : Uri) : Uri :=
  mkUri jsonnet.PREVIEW_SCHEME (authority fileUri)
    (path fileUri ++ ".rendered") (Uri_toString fileUri) (fragment fileUri).


(** A URI with an authority and no path, and a document that has it. *)
Definition bare_host_uri : Uri := mkUri "foo" "host" "" "" "".
Definition bare_host_doc : TextDocument :=
  mkTextDocument bare_host_uri "" "jsonnet".

(** A preview URI whose query is text the host refuses to parse. *)
Definition unreadable_preview : Uri :=
  mkUri "jsonnet-preview" "" "/x.jsonnet.rendered" "file:////x.jsonnet" "".

(** A preview URI whose query names a document the test double cannot
    open. *)
Definition remote_preview : Uri :=
  mkUri "jsonnet-preview" "" "/x.jsonnet.rendered" "http://host/x.jsonnet" "".

(** * Properties *)

(** ** Strings *)

Lemma append_assoc (a b c : string) : (a ++ b) ++ c = a ++ (b ++ c).
Proof.
  induction a as [|ch a IH]; simpl.
  - reflexivity.
  - now rewrite IH.
Qed.

Lemma append_length (a b : string) :
  String.length (a ++ b) = String.length a + String.length b.
Proof. induction a as [|c a IH]; simpl; [reflexivity | now rewrite IH]. Qed.

Lemma contains_between (before needle after : string) :
  contains needle (before ++ needle ++ after).
Proof. now exists before, after. Qed.

Lemma contains_append_l (needle hay front : string) :
  contains needle hay -> contains needle (front ++ hay).
Proof.
  intros (b & a & ->). exists (front ++ b), a. now rewrite append_assoc.
Qed.

Lemma contains_append_r (needle hay back : string) :
  contains needle hay -> contains needle (hay ++ back).
Proof.
  intros (b & a & ->). exists b, (a ++ back). now rewrite !append_assoc.
Qed.

Lemma body_contains (needle inner : string) :
  contains needle inner -> contains needle (html.body inner).
Proof.
  intros Hin. unfold html.body.
  now apply contains_append_l, contains_append_r.
Qed.

Lemma errorMessage_contains (text : string) :
  contains text (html.errorMessage text).
Proof. apply contains_between. Qed.

Lemma codeLiteral_contains (code : string) :
  contains code (html.codeLiteral code).
Proof. apply contains_between. Qed.

(** ** External strings *)

(** Looking a name up in an object whose names are distinct yields the
    value listed with it. *)
Lemma property_of_binding (obj : list (string * string)) (name value : string) :
  NoDup (map fst obj) -> In (name, value) obj ->
  workspace.property obj name = value.
Proof.
  induction obj as [|[k v] rest IH]; simpl; intros Hnd Hin.
  - contradiction.
  - inversion Hnd as [|? ? Hnotin Hrest]; subst.
    destruct Hin as [Heq | Hin].
    + injection Heq as -> ->. now rewrite String.eqb_refl.
    + destruct (String.eqb_spec k name) as [-> | _].
      * exfalso. apply Hnotin. now apply (in_map fst) in Hin.
      * now apply IH.
Qed.

Lemma extStrs_arguments (obj all : list (string * string)) :
  NoDup (map fst all) -> incl obj all ->
  map (fun key => "--ext-str " ++ key ++ "=" ++ dquote
                  ++ workspace.property all key ++ dquote)
      (map fst obj)
  = map ext_str_argument obj.
Proof.
  intros Hnd. induction obj as [|[k v] rest IH]; cbn [map fst]; intros Hincl.
  - reflexivity.
  - rewrite IH by (intros x Hx; apply Hincl; now right).
    rewrite (property_of_binding all k v Hnd) by (apply Hincl; now left).
    reflexivity.
Qed.

(** Reading the settings changes nothing and cannot throw. *)
Lemma extStrs_returns (w : World) :
  exists fragment, workspace.extStrs w = (Normal fragment, w).
Proof. unfold workspace.extStrs, bind, gets, ret. eexists. reflexivity. Qed.


(** ** View columns *)

(** C6: with an editor active in column [column], the target of
    preview-to-side is the column one to the right, capped at the largest
    column; from the third column the target is the third column itself;
    and without side-by-side the target is the active editor's own
    column. *)
Theorem getViewColumn_target (w : World) (active : TextEditor)
    (column : ViewColumn) :
  activeTextEditor w = Some active ->
  viewColumn active = Some column ->
  display.getViewColumn true w
  = (Normal (ViewColumn_of_value
               (Nat.min (ViewColumn_value column + 1) ViewColumn_max)), w)
  /\ (column = Three -> display.getViewColumn true w = (Normal (Some Three), w))
  /\ display.getViewColumn false w = (Normal (viewColumn active), w).
Proof.
  intros Hactive Hcolumn.
  unfold display.getViewColumn, bind, gets, ret.
  rewrite Hactive; simpl. rewrite Hcolumn.
  repeat split.
  - now destruct column.
  - now intros ->.
Qed.

(** ** What the host is asked to build *)

Lemma rendered_path_differs (p : string) :
  String.eqb (p ++ ".rendered") p = false.
Proof.
  apply String.eqb_neq. intros Heq.
  apply (f_equal String.length) in Heq.
  rewrite append_length in Heq. cbn in Heq. lia.
Qed.

(** [canonicalPreviewUri] always changes the path, so the host always
    checks the components; it returns them when the check passes and
    throws the check's error when it fails. *)
Lemma canonicalPreviewUri_cases `{HostApi} (fileUri : Uri) :
  jsonnet.canonicalPreviewUri fileUri
  = match Uri_validate (preview_components fileUri) with
    | Some e => Throw e
    | None => Normal (preview_components fileUri)
    end.
Proof.
  unfold jsonnet.canonicalPreviewUri, Uri_with.
  change (Uri_replace fileUri _) with (preview_components fileUri).
  unfold Uri_eqb, preview_components.
  cbn [scheme authority path query fragment].
  rewrite rendered_path_differs, andb_false_r. reflexivity.
Qed.

Lemma canonicalPreviewUri_accepted `{HostApi} (fileUri previewUri : Uri) :
  jsonnet.canonicalPreviewUri fileUri = Normal previewUri ->
  previewUri = preview_components fileUri.
Proof.
  rewrite canonicalPreviewUri_cases.
  destruct (Uri_validate _); [discriminate | now intros [= <-]].
Qed.

(** ** Saving *)

(** C9, as the code has it: the save callback tests neither the language
    nor the scheme of the saved document.  When the host builds the
    preview URI of the document's URI, the callback fires one change
    event, for that preview URI, and does nothing else; when the host's
    [Uri.with] throws, the callback throws the same error and fires
    nothing. *)
Theorem save_fires_change `{HostApi} (u : Uri) (name language : string)
    (w : World) :
  let saved := mkTextDocument u name language in
  let w' := snd (onDidSaveTextDocument saved w) in
  (forall previewUri,
      jsonnet.canonicalPreviewUri u = Normal previewUri ->
      onDidSaveTextDocument saved w = (Normal tt, add_changeEvent previewUri w)
      /\ changeEvents w' = (changeEvents w ++ [previewUri])%list
      /\ previewUri = preview_components u)
  /\ (forall e,
         jsonnet.canonicalPreviewUri u = Throw e ->
         onDidSaveTextDocument saved w = (Throw e, w)
         /\ changeEvents w' = changeEvents w)
  /\ (Uri_validate (preview_components u) = None ->
      changeEvents w' = (changeEvents w ++ [preview_components u])%list).
Proof.
  cbv zeta.
  unfold onDidSaveTextDocument, jsonnet.DocumentProvider.update,
    bind, lift, modify.
  cbn [uri]. split; [|split].
  - intros previewUri Hbuilt. rewrite Hbuilt.
    repeat split. now apply canonicalPreviewUri_accepted.
  - intros e Hthrown. rewrite Hthrown. now split.
  - intros Hvalid. rewrite canonicalPreviewUri_cases, Hvalid. reflexivity.
Qed.

(** ** Configuring the compiler *)

(** C7: [configure] never throws and returns a boolean.  Off Windows a
    configured path is stored in [jsonnet.executable] and the result is
    true; with no path the search path is probed with [which jsonnet],
    and the result is true when the probe succeeds and, after one error
    message, false when it fails.  On Windows a missing path gives one
    error message and false, and a configured path is stored. *)
Theorem configure_degrades `{HostApi} (config : WorkspaceConfiguration)
    (w : World) :
  (exists (ok : bool) (w' : World),
      workspace.configure config w = (Normal ok, w'))
  /\ (os_type <> "Windows_NT" ->
      forall p, cfg_executablePath config = Some p ->
      workspace.configure config w = (Normal true, set_executable p w)
      /\ configures config w true p (errorMessages w) (spawned w))
  /\ (os_type <> "Windows_NT" ->
      cfg_executablePath config = None ->
      forall out, execSync "which jsonnet" = Normal out ->
      workspace.configure config w
      = (Normal true, add_spawned "which jsonnet" w)
      /\ configures config w true (executable w) (errorMessages w)
           (spawned w ++ ["which jsonnet"]))
  /\ (os_type <> "Windows_NT" ->
      cfg_executablePath config = None ->
      forall e, execSync "which jsonnet" = Throw e ->
      workspace.configure config w
      = (Normal false,
         add_errorMessage "Error: could not find 'jsonnet' command on path"
           (add_spawned "which jsonnet" w))
      /\ configures config w false (executable w)
           (errorMessages w
            ++ ["Error: could not find 'jsonnet' command on path"])
           (spawned w ++ ["which jsonnet"]))
  /\ (os_type = "Windows_NT" ->
      cfg_executablePath config = None ->
      workspace.configure config w
      = (Normal false,
         add_errorMessage
           "Error: 'jsonnet.executablePath' must be set in vscode settings" w)
      /\ configures config w false (executable w)
           (errorMessages w
            ++ ["Error: 'jsonnet.executablePath' must be set in vscode settings"])
           (spawned w))
  /\ (os_type = "Windows_NT" ->
      forall p, cfg_executablePath config = Some p ->
      workspace.configure config w = (Normal true, set_executable p w)
      /\ configures config w true p (errorMessages w) (spawned w)).
Proof.
  unfold configures, workspace.configure, workspace.configureWindows,
    workspace.configureUnix, alert.jsonnetCommandIsNull,
    alert.jsonnetCommandNotOnPath, alert.alert, run_execSync,
    try_catch, bind, modify, lift, ret.
  destruct (String.eqb_spec os_type "Windows_NT") as [Hos | Hos];
    destruct (cfg_executablePath config) as [p |];
    try destruct (execSync "which jsonnet") as [out | e] eqn:Hprobe;
    cbn [fst snd];
    (split; [eauto|]);
    repeat match goal with
           | |- _ /\ _ => split
           | |- forall _, _ => intro
           end;
    try contradiction; try discriminate;
    repeat match goal with
           | Heq : Some _ = Some _ |- _ => injection Heq as <-
           end;
    reflexivity.
Qed.

(** ** The preview commands *)

(** C8: with no active editor, or with an active editor whose document is
    not in the jsonnet language, each of the two preview commands shows
    one error message and stops: no command is dispatched, no process is
    spawned and no change event is fired. *)
Theorem previewJsonnet_aborts `{HostApi} (w : World) :
  (activeTextEditor w = None ->
   forall sideBySide,
     aborts_with sideBySide w
       "Can't open Jsonnet preview because there is no active window")
  /\ (forall editor,
         activeTextEditor w = Some editor ->
         languageId (document editor) <> "jsonnet" ->
         forall sideBySide,
           aborts_with sideBySide w
             ("Can't generate Jsonnet document preview for document with language id '"
              ++ languageId (document editor) ++ "'"))
  /\ command_preview = display.previewJsonnet false
  /\ command_previewToSide = display.previewJsonnet true.
Proof.
  unfold aborts_with, display.previewJsonnet, alert.noActiveWindow,
    alert.documentNotJsonnet, alert.alert, bind, gets, modify.
  split; [|split; [|split; reflexivity]].
  - intros Hnone sideBySide. rewrite Hnone. repeat split.
  - intros editor Hsome Hlanguage sideBySide. rewrite Hsome.
    apply String.eqb_neq in Hlanguage. rewrite Hlanguage. repeat split.
Qed.

(** ** Rendering *)

Lemma error_page_text (e : Error) :
  error_page e = "<html><body><i><pre>" ++ message e ++ "</pre></i></body></html>".
Proof.
  unfold error_page, html.body, html.errorMessage. simpl.
  now rewrite append_assoc.
Qed.

Lemma code_page_text (text : string) :
  code_page text
  = "<html><body><pre><code>" ++ text ++ "</code></pre></body></html>".
Proof.
  unfold code_page, html.body, html.codeLiteral. simpl.
  now rewrite append_assoc.
Qed.

Lemma error_page_contains (e : Error) : contains (message e) (error_page e).
Proof. apply body_contains, errorMessage_contains. Qed.

Lemma code_page_contains (text : string) : contains text (code_page text).
Proof. apply body_contains, codeLiteral_contains. Qed.

(** [prettyPrintObject] by cases on the parser and, for yaml, the dumper:
    the text is parsed first whatever the format. *)
Lemma prettyPrintObject_cases `{HostApi} (json outputFormat : string)
    (w : World) :
  html.prettyPrintObject json outputFormat w
  = match JSON_parse json with
    | Throw e => (Throw e, w)
    | Normal parsed =>
        if String.eqb outputFormat "yaml" then
          match yaml_safeDump parsed with
          | Throw e => (Throw e, w)
          | Normal dumped => (Normal (html.codeLiteral dumped), w)
          end
        else (Normal (html.codeLiteral (JSON_stringify parsed 4)), w)
    end.
Proof.
  unfold html.prettyPrintObject, bind, lift, ret.
  destruct (String.eqb outputFormat "yaml");
    destruct (JSON_parse json) as [parsed | e]; reflexivity.
Qed.

(** One render, by cases on what the host answers.  The command line is
    built from [jsonnet.executable], the fragment [extStrs] returns and
    the document's file name; it is spawned exactly once; every failure
    ends in the error page. *)
Lemma renderDocument_cases `{HostApi} (document : TextDocument) (w : World)
    (fragment : string) :
  workspace.extStrs w = (Normal fragment, w) ->
  jsonnet.DocumentProvider.renderDocument document w
  = let commandLine := executable w ++ " " ++ fragment ++ " " ++ fileName document in
    let w' := add_spawned commandLine w in
    match execSync commandLine with
    | Throw e => (Normal (error_page e), w')
    | Normal jsonOutput =>
        match JSON_parse jsonOutput with
        | Throw e => (Normal (error_page e), w')
        | Normal parsed =>
            if String.eqb (cfg_outputFormat (configuration w)) "yaml" then
              match yaml_safeDump parsed with
              | Throw e => (Normal (error_page e), w')
              | Normal dumped => (Normal (code_page dumped), w')
              end
            else (Normal (code_page (JSON_stringify parsed 4)), w')
        end
    end.
Proof.
  intros Hfragment.
  unfold jsonnet.DocumentProvider.renderDocument, try_catch.
  unfold bind at 1. rewrite Hfragment.
  unfold workspace.outputFormat, run_execSync, bind, gets, modify, lift, ret.
  cbn [executable add_spawned configuration cfg_outputFormat].
  destruct (execSync _) as [jsonOutput | e]; [|reflexivity].
  rewrite prettyPrintObject_cases.
  destruct (JSON_parse jsonOutput) as [parsed | e]; [|reflexivity].
  destruct (String.eqb _ "yaml"); [|reflexivity].
  now destruct (yaml_safeDump parsed).
Qed.

(** C2: [renderDocument] returns a string for every document, every world
    and every host; and whichever step fails (the compiler, the JSON
    parser, or the YAML dumper), the string is the body template around
    the error template around the message of the thrown error, so it
    contains that message. *)
Theorem renderDocument_never_throws `{HostApi} (document : TextDocument)
    (w : World) :
  (exists (page : string) (w' : World),
      jsonnet.DocumentProvider.renderDocument document w = (Normal page, w'))
  /\ forall fragment,
      workspace.extStrs w = (Normal fragment, w) ->
      let commandLine :=
        executable w ++ " " ++ fragment ++ " " ++ fileName document in
      (forall e, execSync commandLine = Throw e -> renders_error document w e)
      /\ (forall jsonOutput e,
             execSync commandLine = Normal jsonOutput ->
             JSON_parse jsonOutput = Throw e ->
             renders_error document w e)
      /\ (forall jsonOutput parsed e,
             execSync commandLine = Normal jsonOutput ->
             JSON_parse jsonOutput = Normal parsed ->
             cfg_outputFormat (configuration w) = "yaml" ->
             yaml_safeDump parsed = Throw e ->
             renders_error document w e).
Proof.
  split.
  - destruct (extStrs_returns w) as (fragment & Hfragment).
    rewrite (renderDocument_cases document w fragment Hfragment). cbv zeta.
    destruct (execSync _) as [jsonOutput | e]; [|eauto].
    destruct (JSON_parse jsonOutput) as [parsed | e]; [|eauto].
    destruct (String.eqb _ "yaml"); [|eauto].
    destruct (yaml_safeDump parsed); eauto.
  - intros fragment Hfragment commandLine. unfold renders_error.
    rewrite (renderDocument_cases document w fragment Hfragment).
    fold commandLine. cbv zeta.
    split; [|split].
    + intros e Hrun. rewrite Hrun.
      split; [reflexivity | apply error_page_contains].
    + intros jsonOutput e Hrun Hparse. rewrite Hrun, Hparse.
      split; [reflexivity | apply error_page_contains].
    + intros jsonOutput parsed e Hrun Hparse Hformat Hdump.
      rewrite Hrun, Hparse, Hformat, Hdump.
      split; [reflexivity | apply error_page_contains].
Qed.

(** C4: when the compiler returns text that parses as JSON, the page for
    output format json is the parsed value serialised by [JSON.stringify]
    with a space argument of 4, between the pre/code tags inside the body
    template; for output format yaml it is what [yaml.safeDump] returns
    for the same parsed value, wrapped the same way. *)
Theorem render_success `{HostApi} (document : TextDocument) (w : World)
    (fragment jsonOutput : string) (parsed : JsValue) :
  workspace.extStrs w = (Normal fragment, w) ->
  execSync (executable w ++ " " ++ fragment ++ " " ++ fileName document)
  = Normal jsonOutput ->
  JSON_parse jsonOutput = Normal parsed ->
  (cfg_outputFormat (configuration w) = "json" ->
   fst (jsonnet.DocumentProvider.renderDocument document w)
   = Normal (html.body (html.codeLiteral (JSON_stringify parsed 4)))
   /\ html.body (html.codeLiteral (JSON_stringify parsed 4))
      = "<html><body><pre><code>" ++ JSON_stringify parsed 4
        ++ "</code></pre></body></html>")
  /\ (forall dumped,
         cfg_outputFormat (configuration w) = "yaml" ->
         yaml_safeDump parsed = Normal dumped ->
         fst (jsonnet.DocumentProvider.renderDocument document w)
         = Normal (html.body (html.codeLiteral dumped))
         /\ html.body (html.codeLiteral dumped)
            = "<html><body><pre><code>" ++ dumped
              ++ "</code></pre></body></html>").
Proof.
  intros Hfragment Hrun Hparse.
  rewrite (renderDocument_cases document w fragment Hfragment). cbv zeta.
  rewrite Hrun, Hparse.
  split.
  - intros ->. split; [reflexivity | apply code_page_text].
  - intros dumped -> ->. split; [reflexivity | apply code_page_text].
Qed.

(** C10: [prettyPrintObject] parses its input as JSON before it looks at
    anything else, for every output format; so when the compiler prints
    text that is not JSON, the render returns the error page for the
    parser's error, whatever output format is configured, yaml
    included. *)
Theorem invalid_json_renders_error `{HostApi} (document : TextDocument)
    (w : World) (fragment jsonOutput : string) (e : Error) :
  workspace.extStrs w = (Normal fragment, w) ->
  execSync (executable w ++ " " ++ fragment ++ " " ++ fileName document)
  = Normal jsonOutput ->
  JSON_parse jsonOutput = Throw e ->
  (forall outputFormat w0,
      html.prettyPrintObject jsonOutput outputFormat w0 = (Throw e, w0))
  /\ fst (jsonnet.DocumentProvider.renderDocument document w)
     = Normal (html.body (html.errorMessage (message e)))
  /\ (cfg_outputFormat (configuration w) = "yaml" ->
      fst (jsonnet.DocumentProvider.renderDocument document w)
      = Normal (html.body (html.errorMessage (message e)))).
Proof.
  intros Hfragment Hrun Hparse.
  assert (Hpage : fst (jsonnet.DocumentProvider.renderDocument document w)
                  = Normal (html.body (html.errorMessage (message e)))).
  { rewrite (renderDocument_cases document w fragment Hfragment). cbv zeta.
    now rewrite Hrun, Hparse. }
  repeat split; auto.
  intros outputFormat w0. rewrite prettyPrintObject_cases. now rewrite Hparse.
Qed.

(** ** Preview URIs *)


(** ** Which settings a render uses *)

(** A component of the world that [renderDocument] leaves alone. *)
Lemma renderDocument_frame `{HostApi} (document : TextDocument) (w : World) :
  let w' := snd (jsonnet.DocumentProvider.renderDocument document w) in
  executable w' = executable w
  /\ configuration w' = configuration w
  /\ activeTextEditor w' = activeTextEditor w.
Proof.
  destruct (extStrs_returns w) as (fragment & Hfragment).
  rewrite (renderDocument_cases document w fragment Hfragment). cbv zeta.
  destruct (execSync _) as [jsonOutput | e]; [|now repeat split].
  destruct (JSON_parse jsonOutput) as [parsed | e]; [|now repeat split].
  destruct (String.eqb _ "yaml"); [|now repeat split].
  destruct (yaml_safeDump parsed); now repeat split.
Qed.

(** What [activate] leaves in [jsonnet.executable]: the configured path
    when there is one, and otherwise what was there before. *)
Lemma activate_executable `{HostApi} (w : World) :
  executable (snd (activate w))
  = match cfg_executablePath (configuration w) with
    | Some p => p
    | None => executable w
    end.
Proof.
  unfold activate, workspace.configure, workspace.configureWindows,
    workspace.configureUnix, alert.jsonnetCommandIsNull,
    alert.jsonnetCommandNotOnPath, alert.alert, run_execSync,
    try_catch, bind, gets, modify, lift, ret.
  destruct (String.eqb os_type "Windows_NT");
    destruct (cfg_executablePath (configuration w)) as [p |];
    try reflexivity.
  now destruct (execSync "which jsonnet").
Qed.

(** C3, as the code has it: a render takes the external strings and the
    output format from the settings in force when it runs, and the
    compiler path from [jsonnet.executable].  That variable is written by
    [activate] alone (the configured path, else the value it had);
    neither a later change of the settings nor a render writes it. *)
Theorem render_settings `{HostApi} (document : TextDocument) (w : World)
    (fragment : string) :
  workspace.extStrs w = (Normal fragment, w) ->
  let commandLine :=
    executable w ++ " " ++ fragment ++ " " ++ fileName document in
  let w' := snd (jsonnet.DocumentProvider.renderDocument document w) in
  spawned w' = (spawned w ++ [commandLine])%list
  /\ (forall other,
         cfg_extStrs (configuration other) = cfg_extStrs (configuration w) ->
         fst (workspace.extStrs other) = Normal fragment)
  /\ workspace.outputFormat w = (Normal (cfg_outputFormat (configuration w)), w)
  /\ (forall jsonOutput,
         execSync commandLine = Normal jsonOutput ->
         fst (jsonnet.DocumentProvider.renderDocument document w)
         = match fst (html.prettyPrintObject jsonOutput
                        (cfg_outputFormat (configuration w)) w) with
           | Normal pretty => Normal (html.body pretty)
           | Throw e => Normal (html.body (html.errorMessage (message e)))
           end)
  /\ executable w' = executable w
  /\ (forall later,
         executable (set_configuration later (snd (activate w)))
         = match cfg_executablePath (configuration w) with
           | Some p => p
           | None => executable w
           end).
Proof.
  intros Hfragment commandLine w'.
  split; [|split; [|split; [|split; [|split]]]].
  - subst w'. rewrite (renderDocument_cases document w fragment Hfragment).
    fold commandLine. cbv zeta.
    destruct (execSync commandLine) as [jsonOutput | e]; [|reflexivity].
    destruct (JSON_parse jsonOutput) as [parsed | e]; [|reflexivity].
    destruct (String.eqb _ "yaml"); [|reflexivity].
    now destruct (yaml_safeDump parsed).
  - intros other Hsame.
    unfold workspace.extStrs, bind, gets, ret in *. cbn [fst].
    rewrite Hsame. exact (f_equal fst Hfragment).
  - reflexivity.
  - intros jsonOutput Hrun.
    rewrite (renderDocument_cases document w fragment Hfragment).
    fold commandLine. cbv zeta. rewrite Hrun, prettyPrintObject_cases.
    destruct (JSON_parse jsonOutput) as [parsed | e]; [|reflexivity].
    destruct (String.eqb _ "yaml"); [|reflexivity].
    now destruct (yaml_safeDump parsed).
  - apply renderDocument_frame.
  - intros later. apply activate_executable.
Qed.

(** * The theorems at work on the test double *)



(** Saving a jsonnet file fires the event for its preview URI. *)
Lemma save_fires_change_witness :
  changeEvents (snd (@onDidSaveTextDocument Stub.linux
                       (Stub.doc "/work/ok.jsonnet") (fresh "json")))
  = [mkUri "jsonnet-preview" "" "/work/ok.jsonnet.rendered"
       "file:///work/ok.jsonnet" ""]
  /\ @onDidSaveTextDocument Stub.linux bare_host_doc (fresh "json")
     = (Throw (mkError "[UriError]: with an authority the path must be empty or begin with a slash"),
        fresh "json").
Proof.
  pose proof (@save_fires_change Stub.linux (Stub.file_uri "/work/ok.jsonnet")
                "/work/ok.jsonnet" "jsonnet" (fresh "json"))
    as (Hfires & _ & _).
  pose proof (@save_fires_change Stub.linux bare_host_uri "" "jsonnet"
                (fresh "json"))
    as (_ & Hthrows & _).
  split.
  - exact (proj1 (proj2 (Hfires _ eq_refl))).
  - exact (proj1 (Hthrows _ eq_refl)).
Defined.

(** C9 fails for a saved document whose URI has an authority and no
    path: the host refuses the preview URI, the save callback throws and
    no change event is fired. *)
Lemma save_of_bare_host_fires_nothing :
  @onDidSaveTextDocument Stub.linux bare_host_doc (fresh "json")
  = (Throw (mkError "[UriError]: with an authority the path must be empty or begin with a slash"),
     fresh "json")
  /\ changeEvents (snd (@onDidSaveTextDocument Stub.linux bare_host_doc
                          (fresh "json")))
     = []
  /\ uri bare_host_doc = mkUri "foo" "host" "" "" "".
Proof. repeat split. Qed.

(** A compiler failing with the message boom gives a page showing boom. *)
Lemma renderDocument_never_throws_witness :
  fst (@jsonnet.DocumentProvider.renderDocument Stub.linux
         (Stub.doc "/work/broken.jsonnet") (fresh "json"))
  = Normal "<html><body><i><pre>boom</pre></i></body></html>"
  /\ contains "boom" "<html><body><i><pre>boom</pre></i></body></html>".
Proof.
  exact (proj1
           (proj2 (@renderDocument_never_throws Stub.linux
                     (Stub.doc "/work/broken.jsonnet") (fresh "json"))
                  "" eq_refl)
           (mkError "boom") eq_refl).
Defined.

Lemma render_success_witness :
  fst (@jsonnet.DocumentProvider.renderDocument Stub.linux
         (Stub.doc "/work/ok.jsonnet") (fresh "json"))
  = Normal ("<html><body><pre><code>" ++ ok_pretty
            ++ "</code></pre></body></html>")
  /\ fst (@jsonnet.DocumentProvider.renderDocument Stub.linux
            (Stub.doc "/work/ok.jsonnet") (fresh "yaml"))
     = Normal ("<html><body><pre><code>"
               ++ Stub.stringify ok_value 0 ++ Stub.newline
               ++ "</code></pre></body></html>").
Proof.
  split.
  - exact (proj1
             (proj1 (@render_success Stub.linux (Stub.doc "/work/ok.jsonnet")
                       (fresh "json") "" Stub.ok_output ok_value
                       eq_refl eq_refl eq_refl)
                    eq_refl)).
  - exact (proj1
             (proj2 (@render_success Stub.linux (Stub.doc "/work/ok.jsonnet")
                       (fresh "yaml") "" Stub.ok_output ok_value
                       eq_refl eq_refl eq_refl)
                    (Stub.stringify ok_value 0 ++ Stub.newline)
                    eq_refl eq_refl)).
Defined.


Lemma getViewColumn_target_witness :
  display.getViewColumn true (editing "jsonnet" One)
  = (Normal (Some Two), editing "jsonnet" One)
  /\ display.getViewColumn true (editing "jsonnet" Three)
     = (Normal (Some Three), editing "jsonnet" Three)
  /\ display.getViewColumn false (editing "jsonnet" Three)
     = (Normal (Some Three), editing "jsonnet" Three).
Proof.
  pose proof (getViewColumn_target (editing "jsonnet" One) _ One
                eq_refl eq_refl) as (Hone & _ & _).
  pose proof (getViewColumn_target (editing "jsonnet" Three) _ Three
                eq_refl eq_refl) as (_ & Hthree & Hsame).
  split; [exact Hone | split; [exact (Hthree eq_refl) | exact Hsame]].
Defined.

Lemma configure_degrades_witness :
  (let w' := snd (@workspace.configure Stub.linux (with_path "/opt/jsonnet")
                    (fresh "json")) in
   executable w' = "/opt/jsonnet" /\ errorMessages w' = [] /\ spawned w' = [])
  /\ (let w' := snd (@workspace.configure Stub.linux (Stub.settings "json")
                       (fresh "json")) in
      fst (@workspace.configure Stub.linux (Stub.settings "json") (fresh "json"))
      = Normal true
      /\ executable w' = "jsonnet" /\ errorMessages w' = []
      /\ spawned w' = ["which jsonnet"])
  /\ (let w' := snd (@workspace.configure Stub.linux_bare (Stub.settings "json")
                       (fresh "json")) in
      fst (@workspace.configure Stub.linux_bare (Stub.settings "json")
             (fresh "json"))
      = Normal false
      /\ executable w' = "jsonnet"
      /\ errorMessages w' = ["Error: could not find 'jsonnet' command on path"]
      /\ spawned w' = ["which jsonnet"])
  /\ (let w' := snd (@workspace.configure Stub.windows (Stub.settings "json")
                       (fresh "json")) in
      fst (@workspace.configure Stub.windows (Stub.settings "json")
             (fresh "json"))
      = Normal false
      /\ executable w' = "jsonnet"
      /\ errorMessages w'
         = ["Error: 'jsonnet.executablePath' must be set in vscode settings"]
      /\ spawned w' = [])
  /\ (let w' := snd (@workspace.configure Stub.windows
                       (with_path "C:\jsonnet.exe") (fresh "json")) in
      fst (@workspace.configure Stub.windows (with_path "C:\jsonnet.exe")
             (fresh "json"))
      = Normal true
      /\ executable w' = "C:\jsonnet.exe" /\ errorMessages w' = []).
Proof.
  assert (Hlinux : "Linux" <> "Windows_NT") by discriminate.
  pose proof (@configure_degrades Stub.linux (with_path "/opt/jsonnet")
                (fresh "json")) as (_ & Hpath & _).
  pose proof (@configure_degrades Stub.linux (Stub.settings "json")
                (fresh "json")) as (_ & _ & Hfound & _).
  pose proof (@configure_degrades Stub.linux_bare (Stub.settings "json")
                (fresh "json")) as (_ & _ & _ & Hmissing & _).
  pose proof (@configure_degrades Stub.windows (Stub.settings "json")
                (fresh "json")) as (_ & _ & _ & _ & Hnull & _).
  pose proof (@configure_degrades Stub.windows (with_path "C:\jsonnet.exe")
                (fresh "json")) as (_ & _ & _ & _ & _ & Hset).
  split; [exact (proj2 (proj2 (Hpath Hlinux _ eq_refl)))|].
  split; [exact (proj2 (Hfound Hlinux eq_refl _ eq_refl))|].
  split; [exact (proj2 (Hmissing Hlinux eq_refl _ eq_refl))|].
  split; [exact (proj2 (Hnull eq_refl eq_refl))|].
  destruct (proj2 (Hset eq_refl _ eq_refl)) as (Hok & Hexe & Hmessages & _).
  exact (conj Hok (conj Hexe Hmessages)).
Defined.

Lemma previewJsonnet_aborts_witness :
  @display.previewJsonnet Stub.linux false (fresh "json")
  = (Normal tt,
     add_errorMessage
       "Can't open Jsonnet preview because there is no active window"
       (fresh "json"))
  /\ @display.previewJsonnet Stub.linux true (editing "json" One)
     = (Normal tt,
        add_errorMessage
          "Can't generate Jsonnet document preview for document with language id 'json'"
          (editing "json" One)).
Proof.
  assert (Hother : "json" <> "jsonnet") by discriminate.
  split.
  - exact (proj1 (proj1 (@previewJsonnet_aborts Stub.linux (fresh "json"))
                    eq_refl false)).
  - exact (proj1 (proj1 (proj2 (@previewJsonnet_aborts Stub.linux
                                  (editing "json" One)))
                    _ eq_refl Hother true)).
Defined.

(** Output that is not JSON, with the yaml format configured. *)
Lemma invalid_json_renders_error_witness :
  fst (@jsonnet.DocumentProvider.renderDocument Stub.linux
         (Stub.doc "/work/text.jsonnet") (fresh "yaml"))
  = Normal "<html><body><i><pre>Unexpected token in JSON</pre></i></body></html>".
Proof.
  exact (proj1 (proj2
           (@invalid_json_renders_error Stub.linux
              (Stub.doc "/work/text.jsonnet") (fresh "yaml") "" "hello"
              (mkError "Unexpected token in JSON") eq_refl eq_refl eq_refl))).
Defined.

Lemma render_settings_witness :
  spawned (snd (@jsonnet.DocumentProvider.renderDocument Stub.linux
                  (Stub.doc "/work/ok.jsonnet") reconfigured))
  = ["/opt/a/jsonnet --ext-str FOO=" ++ dquote ++ "bar" ++ dquote
     ++ " /work/ok.jsonnet"].
Proof.
  exact (proj1 (@render_settings Stub.linux (Stub.doc "/work/ok.jsonnet")
                  reconfigured
                  ("--ext-str FOO=" ++ dquote ++ "bar" ++ dquote) eq_refl)).
Defined.

(** C3 fails for the compiler path: after the settings change from one
    path to another, the settings in force name the second path, and the
    next render still spawns the first. *)
Lemma render_uses_stale_executable :
  cfg_executablePath (configuration reconfigured) = Some "/opt/b/jsonnet"
  /\ spawned (snd (@jsonnet.DocumentProvider.renderDocument Stub.linux
                     (Stub.doc "/work/ok.jsonnet") reconfigured))
     = ["/opt/a/jsonnet --ext-str FOO=" ++ dquote ++ "bar" ++ dquote
        ++ " /work/ok.jsonnet"]
  /\ String.eqb "/opt/a/jsonnet" "/opt/b/jsonnet" = false.
Proof. repeat split. Qed.

(** * Further properties of the code *)

(** ** Pages *)

Lemma append_inj_l (p a b : string) : p ++ a = p ++ b -> a = b.
Proof.
  induction p as [|c p IH]; simpl; intros Heq.
  - exact Heq.
  - injection Heq as Heq. now apply IH.
Qed.

Lemma append_inj_r (s a b : string) : a ++ s = b ++ s -> a = b.
Proof.
  revert b. induction a as [|c a IH]; intros [|d b] Heq; simpl in Heq.
  - reflexivity.
  - apply (f_equal String.length) in Heq. simpl in Heq.
    rewrite append_length in Heq. lia.
  - apply (f_equal String.length) in Heq. simpl in Heq.
    rewrite append_length in Heq. lia.
  - injection Heq as -> Heq. f_equal. now apply IH.
Qed.

Lemma body_injective (a b : string) : html.body a = html.body b -> a = b.
Proof.
  unfold html.body. intros Heq.
  apply append_inj_l in Heq. now apply append_inj_r in Heq.
Qed.

(** X1: a page tells what it shows.  An error page is never equal to a
    page of formatted output, two error pages are equal only for equal
    messages, and two output pages only for equal texts. *)
Theorem page_determines_content (message1 message2 text1 text2 : string) :
  String.eqb (html.body (html.errorMessage message1))
             (html.body (html.codeLiteral text1)) = false
  /\ (html.body (html.errorMessage message1)
      = html.body (html.errorMessage message2) -> message1 = message2)
  /\ (html.body (html.codeLiteral text1)
      = html.body (html.codeLiteral text2) -> text1 = text2).
Proof.
  split; [reflexivity | split]; intros Heq; apply body_injective in Heq.
  - unfold html.errorMessage in Heq.
    apply append_inj_l in Heq. now apply append_inj_r in Heq.
  - unfold html.codeLiteral in Heq.
    apply append_inj_l in Heq. now apply append_inj_r in Heq.
Qed.

(** ** One render *)

Lemma render_command_eq (w : World) (document : TextDocument)
    (fragment : string) :
  workspace.extStrs w = (Normal fragment, w) ->
  render_command w document
  = executable w ++ " " ++ fragment ++ " " ++ fileName document.
Proof. unfold render_command. now intros ->. Qed.

(** The page of a render and the world after it, side by side. *)
Lemma renderDocument_effect `{HostApi} (document : TextDocument) (w : World) :
  exists page,
    jsonnet.DocumentProvider.renderDocument document w
    = (Normal page, add_spawned (render_command w document) w)
    /\ exists inner,
        page = html.body inner
        /\ ((exists text, inner = html.codeLiteral text)
            \/ (exists e, inner = html.errorMessage (message e))).
Proof.
  destruct (extStrs_returns w) as (fragment & Hfragment).
  rewrite (renderDocument_cases document w fragment Hfragment).
  rewrite (render_command_eq w document fragment Hfragment). cbv zeta.
  unfold error_page, code_page.
  destruct (execSync _) as [jsonOutput | e]; [|eauto 8].
  destruct (JSON_parse jsonOutput) as [parsed | e]; [|eauto 8].
  destruct (String.eqb _ "yaml"); [|eauto 8].
  destruct (yaml_safeDump parsed); eauto 8.
Qed.

(** X2: a render does one thing to the world: it spawns one process, with
    the command line made of [jsonnet.executable], the external strings
    and the file name.  Whether the compiler succeeds or fails, it shows
    no message, fires no change event, dispatches no command and leaves
    the settings, the editor and [jsonnet.executable] as they were. *)
Theorem renderDocument_only_spawns `{HostApi} (document : TextDocument)
    (w : World) :
  let w' := snd (jsonnet.DocumentProvider.renderDocument document w) in
  w' = add_spawned (render_command w document) w
  /\ spawned w' = (spawned w ++ [render_command w document])%list
  /\ errorMessages w' = errorMessages w
  /\ changeEvents w' = changeEvents w
  /\ dispatched w' = dispatched w.
Proof.
  destruct (renderDocument_effect document w) as (page & Hrun & _).
  cbv zeta. rewrite Hrun. repeat split.
Qed.

(** X3: the page of a render is always the body template around either
    the pre/code template or the error template, whatever the host
    answers. *)
Theorem renderDocument_page_shape `{HostApi} (document : TextDocument)
    (w : World) :
  exists inner,
    fst (jsonnet.DocumentProvider.renderDocument document w)
    = Normal ("<html><body>" ++ inner ++ "</body></html>")
    /\ ((exists text, inner = "<pre><code>" ++ text ++ "</code></pre>")
        \/ (exists text, inner = "<i><pre>" ++ text ++ "</pre></i>")).
Proof.
  destruct (renderDocument_effect document w)
    as (page & Hrun & inner & -> & [(text & ->) | (e & ->)]);
    rewrite Hrun.
  - exists (html.codeLiteral text). split; [reflexivity|].
    left. now exists text.
  - exists (html.errorMessage (message e)). split; [reflexivity|].
    right. now exists (message e).
Qed.

(** ** The preview commands, past their checks *)

Lemma getViewColumn_pure (sideBySide : bool) (w : World) :
  exists column, display.getViewColumn sideBySide w = (Normal column, w).
Proof.
  unfold display.getViewColumn, bind, gets, ret.
  destruct (activeTextEditor w) as [active |]; [|eauto].
  destruct sideBySide; cbn [negb]; [|eauto].
  destruct (viewColumn active) as [[| |] |]; eauto.
Qed.

(** What [previewJsonnet] does with a jsonnet document in the active
    editor whose preview URI the host builds, by cases on the promise
    [executeCommand] returns. *)
Lemma previewJsonnet_cases `{HostApi} (sideBySide : bool) (w : World)
    (editor : TextEditor) (previewUri : Uri) (column : option ViewColumn) :
  activeTextEditor w = Some editor ->
  languageId (document editor) = "jsonnet" ->
  jsonnet.canonicalPreviewUri (uri (document editor)) = Normal previewUri ->
  display.getViewColumn sideBySide w = (Normal column, w) ->
  let c := {| command := "vscode.previewHtml";
              cmd_uri := previewUri;
              cmd_column := column;
              cmd_title := "Jsonnet property preview" |} in
  display.previewJsonnet sideBySide w
  = match executeCommand c with
    | Normal _ => (Normal tt, add_dispatched c w)
    | Throw reason =>
        (Normal tt,
         add_errorMessage ("Error: Could not render Jsonnet; " ++ message reason)
           (add_dispatched c w))
    end.
Proof.
  intros Heditor Hlanguage Hbuilt Hcolumn c.
  unfold display.previewJsonnet.
  unfold bind at 1. unfold gets at 1. rewrite Heditor, Hlanguage.
  cbn [negb]. rewrite String.eqb_refl. cbn [negb].
  unfold bind at 1. rewrite Hbuilt. unfold lift at 1.
  unfold bind at 1. rewrite Hcolumn. fold c.
  unfold try_catch, run_executeCommand, alert.couldNotRenderJsonnet,
    alert.alert, bind, modify, lift.
  now destruct (executeCommand c) as [[] | reason].
Qed.

(** [previewJsonnet] when the host refuses to build the preview URI. *)
Lemma previewJsonnet_refused `{HostApi} (sideBySide : bool) (w : World)
    (editor : TextEditor) (e : Error) :
  activeTextEditor w = Some editor ->
  languageId (document editor) = "jsonnet" ->
  jsonnet.canonicalPreviewUri (uri (document editor)) = Throw e ->
  display.previewJsonnet sideBySide w = (Throw e, w).
Proof.
  intros Heditor Hlanguage Hthrown.
  unfold display.previewJsonnet.
  unfold bind at 1. unfold gets at 1. rewrite Heditor, Hlanguage.
  cbn [negb]. rewrite String.eqb_refl. cbn [negb].
  unfold bind at 1. now rewrite Hthrown.
Qed.

(** Every way a call of [previewJsonnet] can end. *)
Lemma previewJsonnet_effect `{HostApi} (sideBySide : bool) (w : World) :
  exists result w',
    display.previewJsonnet sideBySide w = (result, w')
    /\ ((dispatchable w = false
         /\ ((result = Normal tt /\ exists text, w' = add_errorMessage text w)
             \/ (w' = w
                 /\ exists editor e,
                     activeTextEditor w = Some editor
                     /\ languageId (document editor) = "jsonnet"
                     /\ jsonnet.canonicalPreviewUri (uri (document editor))
                        = Throw e
                     /\ result = Throw e)))
        \/ (dispatchable w = true
            /\ result = Normal tt
            /\ exists c, w' = add_dispatched c w
                         \/ exists text, w' = add_errorMessage text (add_dispatched c w))).
Proof.
  unfold dispatchable.
  destruct (activeTextEditor w) as [editor |] eqn:Heditor.
  - destruct (String.eqb_spec (languageId (document editor)) "jsonnet")
      as [Hlanguage | Hlanguage].
    + destruct (jsonnet.canonicalPreviewUri (uri (document editor)))
        as [previewUri | e] eqn:Hbuilt.
      * destruct (getViewColumn_pure sideBySide w) as (column & Hcolumn).
        rewrite (previewJsonnet_cases sideBySide w editor previewUri column
                   Heditor Hlanguage Hbuilt Hcolumn). cbv zeta.
        destruct (executeCommand _) as [[] | reason];
          do 2 eexists; (split; [reflexivity|]); right;
          (split; [reflexivity|]); (split; [reflexivity|]);
          eexists; [left | right]; eauto.
      * rewrite (previewJsonnet_refused sideBySide w editor e
                   Heditor Hlanguage Hbuilt).
        do 2 eexists. split; [reflexivity|]. left. split; [reflexivity|].
        right. split; [reflexivity|]. exists editor, e. auto.
    + unfold display.previewJsonnet, alert.documentNotJsonnet, alert.alert,
        bind, gets, modify.
      rewrite Heditor. apply String.eqb_neq in Hlanguage. rewrite Hlanguage.
      cbn [negb andb]. do 2 eexists. split; [reflexivity|]. left.
      split; [reflexivity|]. left. eauto.
  - unfold display.previewJsonnet, alert.noActiveWindow, alert.alert,
      bind, gets, modify.
    rewrite Heditor. do 2 eexists. split; [reflexivity|]. left.
    split; [reflexivity|]. left. eauto.
Qed.

(** X5: with a jsonnet document in the active editor whose preview URI
    the host builds, [previewJsonnet] dispatches exactly one command:
    [vscode.previewHtml] with that preview URI, the column
    [getViewColumn] gives and the fixed title.  When the host resolves
    the command nothing else happens; when it rejects with a reason, one
    error message carrying the reason is shown, and the call still
    returns normally. *)
Theorem previewJsonnet_dispatches `{HostApi} (sideBySide : bool) (w : World)
    (editor : TextEditor) (previewUri : Uri) :
  activeTextEditor w = Some editor ->
  languageId (document editor) = "jsonnet" ->
  jsonnet.canonicalPreviewUri (uri (document editor)) = Normal previewUri ->
  exists c,
    command c = "vscode.previewHtml"
    /\ cmd_uri c = previewUri
    /\ cmd_title c = "Jsonnet property preview"
    /\ display.getViewColumn sideBySide w = (Normal (cmd_column c), w)
    /\ dispatched (snd (display.previewJsonnet sideBySide w))
       = (dispatched w ++ [c])%list
    /\ (forall done, executeCommand c = Normal done ->
        display.previewJsonnet sideBySide w = (Normal tt, add_dispatched c w)
        /\ errorMessages (snd (display.previewJsonnet sideBySide w))
           = errorMessages w)
    /\ (forall reason, executeCommand c = Throw reason ->
        display.previewJsonnet sideBySide w
        = (Normal tt,
           add_errorMessage
             ("Error: Could not render Jsonnet; " ++ message reason)
             (add_dispatched c w))
        /\ errorMessages (snd (display.previewJsonnet sideBySide w))
           = (errorMessages w
              ++ [("Error: Could not render Jsonnet; " ++ message reason)%string])%list).
Proof.
  intros Heditor Hlanguage Hbuilt.
  destruct (getViewColumn_pure sideBySide w) as (column & Hcolumn).
  pose proof (previewJsonnet_cases sideBySide w editor previewUri column
                Heditor Hlanguage Hbuilt Hcolumn) as Hrun.
  set (c := {| command := "vscode.previewHtml";
               cmd_uri := previewUri;
               cmd_column := column;
               cmd_title := "Jsonnet property preview" |}) in *.
  cbv zeta in Hrun.
  exists c.
  split; [reflexivity|]. split; [reflexivity|]. split; [reflexivity|].
  split; [exact Hcolumn|]. split; [|split].
  - rewrite Hrun. now destruct (executeCommand c).
  - intros done Hdone. now rewrite Hrun, Hdone.
  - intros reason Hreason. now rewrite Hrun, Hreason.
Qed.

(** X6: [previewJsonnet] throws in one case only: a jsonnet document is
    in the active editor and the host's [Uri.with] refuses to build its
    preview URI; it then throws the host's error and changes nothing.
    In every other case it returns normally, whatever the host does with
    the command.  In all cases it touches only the two logs of messages
    and dispatched commands, which only grow: the settings, the editor,
    [jsonnet.executable], the spawned processes and the change events
    stay as they were. *)
Theorem previewJsonnet_throws_only_from_with `{HostApi} (sideBySide : bool)
    (w : World) :
  let w' := snd (display.previewJsonnet sideBySide w) in
  (fst (display.previewJsonnet sideBySide w) = Normal tt
   \/ exists editor e,
       activeTextEditor w = Some editor
       /\ languageId (document editor) = "jsonnet"
       /\ jsonnet.canonicalPreviewUri (uri (document editor)) = Throw e
       /\ display.previewJsonnet sideBySide w = (Throw e, w))
  /\ configuration w' = configuration w
  /\ activeTextEditor w' = activeTextEditor w
  /\ executable w' = executable w
  /\ spawned w' = spawned w
  /\ changeEvents w' = changeEvents w
  /\ extends (errorMessages w) (errorMessages w')
  /\ extends (dispatched w) (dispatched w').
Proof.
  assert (Hsame : forall A (l : list A), extends l l).
  { intros A l. exists []. now rewrite app_nil_r. }
  destruct (previewJsonnet_effect sideBySide w)
    as (result & w' & Hrun
        & [(_ & [(-> & text & ->) | (-> & editor & e & He & Hl & Hb & ->)])
          | (_ & -> & c & [-> | (text & ->)])]);
    cbv zeta; rewrite Hrun; cbn [fst snd].
  - split; [now left|]. cbn. repeat split; auto. now exists [text].
  - split; [right; exists editor, e; auto|]. repeat split; auto.
  - split; [now left|]. cbn. repeat split; auto. now exists [c].
  - split; [now left|]. cbn. repeat split; auto;
      [now exists [text] | now exists [c]].
Qed.

(** ** The content provider *)

Lemma provideTextDocumentContent_cases `{HostApi} (uri : Uri) (w : World) :
  jsonnet.DocumentProvider.provideTextDocumentContent uri w
  = match jsonnet.DocumentProvider.sourceUri uri with
    | Normal source =>
        match openTextDocument source with
        | Normal document => jsonnet.DocumentProvider.renderDocument document w
        | Throw e => (Throw e, w)
        end
    | Throw e => (Throw e, w)
    end.
Proof.
  unfold jsonnet.DocumentProvider.provideTextDocumentContent, bind, lift.
  destruct (jsonnet.DocumentProvider.sourceUri uri) as [source | e];
    [|reflexivity].
  now destruct (openTextDocument source).
Qed.

(** X7: the provider fails in two cases only, and spawns nothing in
    either.  When the host's [Uri.parse] throws on the query, the
    provider throws that error before anything is opened; when the host
    cannot open the parsed source document, the provider rejects with
    the host's error.  When the host parses the query and opens the
    document, the provider returns a page, the one [renderDocument]
    gives for the opened document. *)
Theorem provide_rejects_or_renders `{HostApi} (uri : Uri) (w : World) :
  (forall e,
      jsonnet.DocumentProvider.sourceUri uri = Throw e ->
      jsonnet.DocumentProvider.provideTextDocumentContent uri w = (Throw e, w))
  /\ (forall source e,
         jsonnet.DocumentProvider.sourceUri uri = Normal source ->
         openTextDocument source = Throw e ->
         jsonnet.DocumentProvider.provideTextDocumentContent uri w
         = (Throw e, w))
  /\ (forall source document,
         jsonnet.DocumentProvider.sourceUri uri = Normal source ->
         openTextDocument source = Normal document ->
         jsonnet.DocumentProvider.provideTextDocumentContent uri w
         = jsonnet.DocumentProvider.renderDocument document w
         /\ (exists page,
                fst (jsonnet.DocumentProvider.provideTextDocumentContent uri w)
                = Normal page)
         /\ spawned (snd (jsonnet.DocumentProvider.provideTextDocumentContent
                            uri w))
            = (spawned w ++ [render_command w document])%list).
Proof.
  rewrite provideTextDocumentContent_cases. split; [|split].
  - now intros e ->.
  - now intros source e -> ->.
  - intros source document -> ->. split; [reflexivity|].
    destruct (renderDocument_effect document w) as (page & Hrun & _).
    rewrite Hrun. split; [now exists page | reflexivity].
Qed.

(** X8: the preview command, the provider and the save callback agree on
    one URI.  Take a jsonnet document in the active editor whose preview
    URI the host builds, whose URI the host's [Uri.parse] reads back from
    its [toString], and which the host opens.  Then the URI the preview
    command dispatches is that preview URI; the provider, given it,
    renders the opened document, spawning the compiler on its file name;
    and saving the editor's document fires the change event for exactly
    that URI. *)
Theorem preview_then_provide `{HostApi} (sideBySide : bool) (w : World)
    (editor : TextEditor) (previewUri : Uri) (opened : TextDocument) :
  activeTextEditor w = Some editor ->
  languageId (document editor) = "jsonnet" ->
  jsonnet.canonicalPreviewUri (uri (document editor)) = Normal previewUri ->
  Uri_parse (Uri_toString (uri (document editor)))
  = Normal (uri (document editor)) ->
  openTextDocument (uri (document editor)) = Normal opened ->
  exists c,
    dispatched (snd (display.previewJsonnet sideBySide w))
    = (dispatched w ++ [c])%list
    /\ cmd_uri c = previewUri
    /\ (forall w0,
           jsonnet.DocumentProvider.provideTextDocumentContent (cmd_uri c) w0
           = jsonnet.DocumentProvider.renderDocument opened w0
           /\ spawned (snd (jsonnet.DocumentProvider.provideTextDocumentContent
                              (cmd_uri c) w0))
              = (spawned w0 ++ [render_command w0 opened])%list)
    /\ forall w0,
        changeEvents (snd (onDidSaveTextDocument (document editor) w0))
        = (changeEvents w0 ++ [cmd_uri c])%list.
Proof.
  intros Heditor Hlanguage Hbuilt Hhost Hopen.
  destruct (getViewColumn_pure sideBySide w) as (column & Hcolumn).
  pose proof (previewJsonnet_cases sideBySide w editor previewUri column
                Heditor Hlanguage Hbuilt Hcolumn) as Hrun.
  set (c := {| command := "vscode.previewHtml";
               cmd_uri := previewUri;
               cmd_column := column;
               cmd_title := "Jsonnet property preview" |}) in *.
  cbv zeta in Hrun. exists c. split; [|split; [reflexivity|split]].
  - rewrite Hrun. now destruct (executeCommand c).
  - intros w0. cbn [cmd_uri c].
    assert (Hsource : jsonnet.DocumentProvider.sourceUri previewUri
                      = Normal (uri (document editor))).
    { rewrite (canonicalPreviewUri_accepted _ _ Hbuilt). exact Hhost. }
    rewrite provideTextDocumentContent_cases, Hsource, Hopen.
    split; [reflexivity|].
    now destruct (renderDocument_effect opened w0) as (page & -> & _).
  - intros w0. cbn [cmd_uri c].
    unfold onDidSaveTextDocument, jsonnet.DocumentProvider.update,
      bind, lift, modify.
    now rewrite Hbuilt.
Qed.

(** X9: distinct source URIs have distinct preview URIs: where the host's
    [Uri.parse] reads back what its [toString] printed for both, a
    preview URI built for both comes from equal source URIs. *)
Theorem canonicalPreviewUri_injective `{HostApi} (first second preview : Uri) :
  Uri_parse (Uri_toString first) = Normal first ->
  Uri_parse (Uri_toString second) = Normal second ->
  jsonnet.canonicalPreviewUri first = Normal preview ->
  jsonnet.canonicalPreviewUri second = Normal preview ->
  first = second.
Proof.
  intros Hfirst Hsecond Hone Htwo.
  apply canonicalPreviewUri_accepted in Hone, Htwo.
  assert (Hsame : Uri_toString first = Uri_toString second).
  { transitivity (query preview); [now rewrite Hone | now rewrite Htwo]. }
  rewrite Hsame in Hfirst. rewrite Hfirst in Hsecond.
  now injection Hsecond.
Qed.

(** ** Sequences of calls from the host *)

(** The world after a provider call. *)
Lemma call_provide `{HostApi} (u : Uri) (w : World) :
  snd (call (ProvideTextDocumentContent u) w)
  = match jsonnet.DocumentProvider.sourceUri u with
    | Normal source =>
        match openTextDocument source with
        | Normal opened => add_spawned (render_command w opened) w
        | Throw _ => w
        end
    | Throw _ => w
    end.
Proof.
  unfold call, bind. rewrite provideTextDocumentContent_cases.
  destruct (jsonnet.DocumentProvider.sourceUri u) as [source | e];
    [|reflexivity].
  destruct (openTextDocument source) as [opened | e]; [|reflexivity].
  now destruct (renderDocument_effect opened w) as (page & -> & _).
Qed.

(** The world after a save. *)
Lemma call_save `{HostApi} (document : TextDocument) (w : World) :
  snd (call (DidSaveTextDocument document) w)
  = match jsonnet.canonicalPreviewUri (uri document) with
    | Normal previewUri => add_changeEvent previewUri w
    | Throw _ => w
    end.
Proof.
  unfold call, onDidSaveTextDocument, jsonnet.DocumentProvider.update,
    bind, lift, modify.
  now destruct (jsonnet.canonicalPreviewUri (uri document)).
Qed.

(** What one call does to each part of the world. *)
Lemma call_effect `{HostApi} (c : Callback) (w : World) :
  let w' := snd (call c w) in
  configuration w' = configuration w
  /\ activeTextEditor w' = activeTextEditor w
  /\ executable w' = executable w
  /\ changeEvents w' = (changeEvents w ++ saved_previews [c])%list
  /\ List.length (spawned w') = List.length (spawned w) + opened_provides [c]
  /\ List.length (dispatched w')
     = List.length (dispatched w)
       + (if dispatchable w then preview_commands [c] else 0).
Proof.
  assert (Hpreview : forall sideBySide,
    let w' := snd (display.previewJsonnet sideBySide w) in
    configuration w' = configuration w
    /\ activeTextEditor w' = activeTextEditor w
    /\ executable w' = executable w
    /\ changeEvents w' = (changeEvents w ++ [])%list
    /\ List.length (spawned w') = List.length (spawned w) + 0
    /\ List.length (dispatched w')
       = List.length (dispatched w) + (if dispatchable w then 1 else 0)).
  { intros sideBySide.
    destruct (previewJsonnet_effect sideBySide w)
      as (result & w' & Hrun
          & [(Hno & [(_ & text & ->) | (-> & _)])
            | (Hyes & _ & c' & [-> | (text & ->)])]);
      cbv zeta; rewrite Hrun; cbn [snd];
      rewrite ?Hno, ?Hyes; cbn;
      rewrite ?app_nil_r, ?length_app; cbn; repeat split; lia. }
  destruct c as [| | document | u]; cbv zeta.
  - exact (Hpreview true).
  - exact (Hpreview false).
  - rewrite call_save. cbn [saved_previews opened_provides preview_commands].
    destruct (jsonnet.canonicalPreviewUri (uri document)); cbn;
      rewrite ?app_nil_r; destruct (dispatchable w); repeat split; lia.
  - rewrite (call_provide u w).
    cbn [opened_provides saved_previews preview_commands]. unfold opens.
    rewrite app_nil_r.
    destruct (jsonnet.DocumentProvider.sourceUri u) as [source | e];
      [destruct (openTextDocument source) as [opened | e]|];
      cbn; rewrite ?length_app; cbn;
      destruct (dispatchable w); repeat split; lia.
Qed.

Lemma dispatchable_call `{HostApi} (c : Callback) (w : World) :
  dispatchable (snd (call c w)) = dispatchable w.
Proof.
  unfold dispatchable.
  destruct (call_effect c w) as (_ & Heditor & _). cbv zeta in Heditor.
  now rewrite Heditor.
Qed.

(** X10: after activation the extension never writes its own inputs.
    Over any sequence of commands, saves and provider calls, the
    settings, the active editor and [jsonnet.executable] stay as they
    were; so every later render uses the compiler path that was in
    [jsonnet.executable] before the sequence. *)
Theorem callbacks_keep_inputs `{HostApi} (calls : list Callback) (w : World) :
  configuration (run_callbacks calls w) = configuration w
  /\ activeTextEditor (run_callbacks calls w) = activeTextEditor w
  /\ executable (run_callbacks calls w) = executable w
  /\ forall document,
      render_command (run_callbacks calls w) document
      = render_command w document.
Proof.
  assert (Hinputs :
    configuration (run_callbacks calls w) = configuration w
    /\ activeTextEditor (run_callbacks calls w) = activeTextEditor w
    /\ executable (run_callbacks calls w) = executable w).
  { revert w. induction calls as [|c rest IH]; intros w; cbn [run_callbacks].
    - now repeat split.
    - destruct (IH (snd (call c w))) as (Hc & He & Hx).
      destruct (call_effect c w) as (Hc' & He' & Hx' & _). cbv zeta in *.
      repeat split; congruence. }
  destruct Hinputs as (Hc & He & Hx). repeat split; try assumption.
  intros document.
  unfold render_command, workspace.extStrs, bind, gets, ret. cbn [fst].
  now rewrite Hc, Hx.
Qed.

(** X11: change events come from saves and from nothing else.  Over any
    sequence of calls the events fired are the preview URIs of the
    documents saved, in the order of the saves: one for each save whose
    preview URI the host builds, and none for a save where the host's
    [Uri.with] throws. *)
Theorem callbacks_change_events `{HostApi} (calls : list Callback) (w : World) :
  changeEvents (run_callbacks calls w)
  = (changeEvents w ++ saved_previews calls)%list.
Proof.
  revert w. induction calls as [|c rest IH]; intros w; cbn [run_callbacks].
  - cbn. now rewrite app_nil_r.
  - rewrite IH.
    destruct (call_effect c w) as (_ & _ & _ & Hevents & _). cbv zeta in Hevents.
    rewrite Hevents, <- app_assoc. f_equal.
    destruct c as [| | document | u]; try reflexivity.
    cbn [saved_previews].
    now destruct (jsonnet.canonicalPreviewUri (uri document)).
Qed.

(** X12: processes are spawned by provider calls and by nothing else, one
    per call for which the host parses the query and opens the source
    document; and commands are dispatched by the preview commands alone,
    one per command when the active editor shows a jsonnet document
    whose preview URI the host builds, and none otherwise. *)
Theorem callbacks_spawn_and_dispatch `{HostApi} (calls : list Callback)
    (w : World) :
  List.length (spawned (run_callbacks calls w))
  = List.length (spawned w) + opened_provides calls
  /\ List.length (dispatched (run_callbacks calls w))
     = List.length (dispatched w)
       + (if dispatchable w then preview_commands calls else 0).
Proof.
  revert w. induction calls as [|c rest IH]; intros w; cbn [run_callbacks].
  - cbn. destruct (dispatchable w); lia.
  - destruct (IH (snd (call c w))) as (Hspawned & Hdispatched).
    rewrite Hspawned, Hdispatched, dispatchable_call.
    destruct (call_effect c w) as (_ & _ & _ & _ & Hs & Hd).
    cbv zeta in Hs, Hd. rewrite Hs, Hd.
    destruct c as [| | document | u]; cbn [opened_provides preview_commands];
      try destruct (opens u);
      destruct (dispatchable w); lia.
Qed.

(** ** External strings, again *)

Lemma join_app (sep : string) (front back : list string) :
  front <> [] -> back <> [] ->
  join sep (front ++ back) = join sep front ++ sep ++ join sep back.
Proof.
  intros Hfront Hback.
  induction front as [|x front IH]; [contradiction|].
  destruct front as [|y front].
  - destruct back as [|z back]; [contradiction | reflexivity].
  - change (join sep ((x :: y :: front) ++ back))
      with (x ++ sep ++ join sep ((y :: front) ++ back)).
    rewrite IH by discriminate.
    change (join sep (x :: y :: front)) with (x ++ sep ++ join sep (y :: front)).
    now rewrite !append_assoc.
Qed.

(** The fragment for a settings object with distinct names. *)
Lemma extStrs_with (bindings : list (string * string)) (w : World) :
  NoDup (map fst bindings) ->
  fst (workspace.extStrs (with_extStrs (Some bindings) w))
  = Normal (join " " (map ext_str_argument bindings)).
Proof.
  intros Hdistinct. unfold workspace.extStrs, bind, gets, ret.
  cbn [fst with_extStrs set_configuration configuration cfg_extStrs].
  now rewrite (extStrs_arguments bindings bindings Hdistinct (incl_refl _)).
Qed.

(** X13: the fragment is empty exactly when there is nothing to pass: the
    setting is unset, or it is an object with no property.  In both cases
    the command line has two spaces between the compiler and the file. *)
Theorem extStrs_empty_iff (w : World) :
  (fst (workspace.extStrs w) = Normal ""
   <-> cfg_extStrs (configuration w) = None
       \/ cfg_extStrs (configuration w) = Some [])
  /\ forall document,
      fst (workspace.extStrs w) = Normal "" ->
      render_command w document = executable w ++ "  " ++ fileName document.
Proof.
  split.
  - unfold workspace.extStrs, bind, gets, ret. cbn [fst].
    destruct (cfg_extStrs (configuration w)) as [[|[k v] rest] |]; split;
      try (intros; auto; fail).
    + intros Hempty. exfalso. cbn [map fst] in Hempty.
      destruct (map fst rest); cbn in Hempty; discriminate.
    + intros [Hno | Hno]; discriminate.
  - intros document Hempty. unfold render_command. now rewrite Hempty.
Qed.

(** X14: the fragment is built binding by binding.  For two non-empty
    lists of bindings whose names are all distinct, the fragment of the
    two lists together is the fragment of the first, a space, and the
    fragment of the second. *)
Theorem extStrs_concatenates (front back : list (string * string))
    (w : World) (first second : string) :
  NoDup (map fst (front ++ back)%list) ->
  front <> [] -> back <> [] ->
  fst (workspace.extStrs (with_extStrs (Some front) w)) = Normal first ->
  fst (workspace.extStrs (with_extStrs (Some back) w)) = Normal second ->
  fst (workspace.extStrs (with_extStrs (Some (front ++ back)%list) w))
  = Normal (first ++ " " ++ second).
Proof.
  intros Hdistinct Hfront Hback Hfirst Hsecond.
  rewrite map_app in Hdistinct.
  pose proof (NoDup_app_remove_r _ _ Hdistinct) as Hf.
  pose proof (NoDup_app_remove_l _ _ Hdistinct) as Hb.
  rewrite extStrs_with in Hfirst by assumption.
  rewrite extStrs_with in Hsecond by assumption.
  rewrite extStrs_with by now rewrite map_app.
  injection Hfirst as <-. injection Hsecond as <-.
  rewrite map_app, join_app; [reflexivity | |];
    intros Hnil; apply map_eq_nil in Hnil; contradiction.
Qed.

(** ** Activation *)

(** X15: [configure] answers false exactly when it has shown an error
    message.  When it answers true no message is shown and
    [jsonnet.executable] holds the configured path, or its old value
    when none is configured; when it answers false no path is
    configured, one message has been added and [jsonnet.executable] is
    unchanged.  The settings, the editor, the change events and the
    dispatched commands are never touched. *)
Theorem configure_result_and_message `{HostApi}
    (config : WorkspaceConfiguration) (w : World) :
  let w' := snd (workspace.configure config w) in
  ((fst (workspace.configure config w) = Normal true
    /\ errorMessages w' = errorMessages w
    /\ executable w' = match cfg_executablePath config with
                       | Some p => p
                       | None => executable w
                       end)
   \/ (fst (workspace.configure config w) = Normal false
       /\ cfg_executablePath config = None
       /\ executable w' = executable w
       /\ exists text, errorMessages w' = (errorMessages w ++ [text])%list))
  /\ configuration w' = configuration w
  /\ activeTextEditor w' = activeTextEditor w
  /\ changeEvents w' = changeEvents w
  /\ dispatched w' = dispatched w.
Proof.
  unfold workspace.configure, workspace.configureWindows,
    workspace.configureUnix, alert.jsonnetCommandIsNull,
    alert.jsonnetCommandNotOnPath, alert.alert, run_execSync,
    try_catch, bind, modify, lift, ret.
  destruct (String.eqb os_type "Windows_NT");
    destruct (cfg_executablePath config) as [p |];
    try destruct (execSync "which jsonnet") as [out | e];
    cbn; (split; [|now repeat split]);
    first [left; now repeat split | right; repeat split; eauto].
Qed.




(** ** Columns at the edges *)

(** X17: [getViewColumn] reads the world and never changes it.  With no
    active editor it answers column One for both commands; with an
    editor whose column is undefined it answers undefined for both; and
    the side-by-side target of a column is never to its left and never
    past the third column. *)
Theorem getViewColumn_edges (sideBySide : bool) (w : World) :
  (exists column, display.getViewColumn sideBySide w = (Normal column, w))
  /\ (activeTextEditor w = None ->
      display.getViewColumn sideBySide w = (Normal (Some One), w))
  /\ (forall active,
         activeTextEditor w = Some active -> viewColumn active = None ->
         display.getViewColumn sideBySide w = (Normal None, w))
  /\ (forall active column,
         activeTextEditor w = Some active -> viewColumn active = Some column ->
         exists target,
           display.getViewColumn true w = (Normal (Some target), w)
           /\ ViewColumn_value column <= ViewColumn_value target
           /\ ViewColumn_value target <= ViewColumn_max).
Proof.
  split; [apply getViewColumn_pure|].
  unfold display.getViewColumn, bind, gets, ret, ViewColumn_max.
  split; [|split].
  - now intros ->.
  - intros active -> Hcolumn. rewrite Hcolumn. now destruct sideBySide.
  - intros active column -> Hcolumn. rewrite Hcolumn. cbn [negb].
    destruct column; eexists; (split; [reflexivity|]); cbn; lia.
Qed.

(** ** Every binding reaches the compiler *)




(** * The further properties at work on the test double *)

Lemma page_determines_content_witness :
  html.body (html.errorMessage "boom") = html.body (html.errorMessage "boom")
  /\ "boom" = "boom".
Proof.
  split; [reflexivity|].
  exact (proj1 (proj2 (page_determines_content "boom" "boom" "" ""))
           eq_refl).
Defined.

Lemma previewJsonnet_dispatches_witness :
  exists c,
    command c = "vscode.previewHtml"
    /\ cmd_uri c
       = mkUri "jsonnet-preview" "" "/work/ok.jsonnet.rendered"
           "file:///work/ok.jsonnet" ""
    /\ @display.getViewColumn true (editing "jsonnet" Two)
       = (Normal (cmd_column c), editing "jsonnet" Two)
    /\ dispatched (snd (@display.previewJsonnet Stub.linux true
                          (editing "jsonnet" Two)))
       = [c].
Proof.
  destruct (@previewJsonnet_dispatches Stub.linux true (editing "jsonnet" Two)
              _ _ eq_refl eq_refl eq_refl)
    as (c & Hcommand & Huri & _ & Hcolumn & Hdispatched & _).
  exists c.
  split; [exact Hcommand|].
  split; [exact Huri | split; [exact Hcolumn | exact Hdispatched]].
Defined.

Lemma provide_rejects_or_renders_witness :
  @jsonnet.DocumentProvider.provideTextDocumentContent Stub.linux
    unreadable_preview (fresh "json")
  = (Throw (mkError "[UriError]: without an authority the path cannot begin with two slashes"),
     fresh "json")
  /\ @jsonnet.DocumentProvider.provideTextDocumentContent Stub.linux
       remote_preview (fresh "json")
     = (Throw (mkError "cannot open"), fresh "json")
  /\ spawned (snd (@jsonnet.DocumentProvider.provideTextDocumentContent
                     Stub.linux
                     (mkUri "jsonnet-preview" "" "/work/ok.jsonnet.rendered"
                        "file:///work/ok.jsonnet" "")
                     (fresh "json")))
     = ["jsonnet  /work/ok.jsonnet"].
Proof.
  split; [|split].
  - exact (proj1 (@provide_rejects_or_renders Stub.linux unreadable_preview
                    (fresh "json"))
             _ eq_refl).
  - exact (proj1 (proj2 (@provide_rejects_or_renders Stub.linux remote_preview
                           (fresh "json")))
             _ _ eq_refl eq_refl).
  - exact (proj2 (proj2 (proj2 (proj2
             (@provide_rejects_or_renders Stub.linux
                (mkUri "jsonnet-preview" "" "/work/ok.jsonnet.rendered"
                   "file:///work/ok.jsonnet" "")
                (fresh "json")))
             _ (Stub.doc "/work/ok.jsonnet") eq_refl eq_refl))).
Defined.

Lemma preview_then_provide_witness :
  exists c,
    dispatched (snd (@display.previewJsonnet Stub.linux false
                       (editing "jsonnet" One)))
    = [c]
    /\ spawned (snd (@jsonnet.DocumentProvider.provideTextDocumentContent
                       Stub.linux (cmd_uri c) (fresh "json")))
       = ["jsonnet  /work/ok.jsonnet"]
    /\ changeEvents (snd (@onDidSaveTextDocument Stub.linux
                            (Stub.doc "/work/ok.jsonnet") (fresh "json")))
       = [cmd_uri c].
Proof.
  destruct (@preview_then_provide Stub.linux false (editing "jsonnet" One)
              _ _ (Stub.doc "/work/ok.jsonnet")
              eq_refl eq_refl eq_refl eq_refl eq_refl)
    as (c & Hdispatched & _ & Hprovide & Hsave).
  exists c. split; [exact Hdispatched|].
  split; [exact (proj2 (Hprovide (fresh "json"))) | exact (Hsave (fresh "json"))].
Defined.

Lemma canonicalPreviewUri_injective_witness :
  Stub.file_uri "/work/ok.jsonnet" = Stub.file_uri "/work/ok.jsonnet".
Proof.
  exact (@canonicalPreviewUri_injective Stub.linux
           (Stub.file_uri "/work/ok.jsonnet") (Stub.file_uri "/work/ok.jsonnet")
           _ eq_refl eq_refl eq_refl eq_refl).
Defined.

Lemma extStrs_empty_iff_witness :
  render_command (fresh "json") (Stub.doc "/work/ok.jsonnet")
  = "jsonnet  /work/ok.jsonnet".
Proof.
  exact (proj2 (extStrs_empty_iff (fresh "json"))
           (Stub.doc "/work/ok.jsonnet") eq_refl).
Defined.

Lemma extStrs_concatenates_witness :
  fst (workspace.extStrs
         (with_extStrs (Some [("FOO", "bar"); ("BAZ", "qux")]) (fresh "json")))
  = Normal (("--ext-str FOO=" ++ dquote ++ "bar" ++ dquote)
            ++ " " ++ ("--ext-str BAZ=" ++ dquote ++ "qux" ++ dquote)).
Proof.
  assert (Hdistinct : NoDup (map fst ([("FOO", "bar")] ++ [("BAZ", "qux")])%list)).
  { repeat constructor; simpl; intuition discriminate. }
  assert (Hfront : [("FOO", "bar")] <> []) by discriminate.
  assert (Hback : [("BAZ", "qux")] <> []) by discriminate.
  exact (extStrs_concatenates [("FOO", "bar")] [("BAZ", "qux")] (fresh "json")
           _ _ Hdistinct Hfront Hback eq_refl eq_refl).
Defined.


Lemma getViewColumn_edges_witness :
  display.getViewColumn true (fresh "json") = (Normal (Some One), fresh "json")
  /\ exists target,
      display.getViewColumn true (editing "jsonnet" Three)
      = (Normal (Some target), editing "jsonnet" Three)
      /\ 3 <= ViewColumn_value target
      /\ ViewColumn_value target <= ViewColumn_max.
Proof.
  split.
  - exact (proj1 (proj2 (getViewColumn_edges true (fresh "json"))) eq_refl).
  - exact (proj2 (proj2 (proj2 (getViewColumn_edges true
                                  (editing "jsonnet" Three))))
             _ Three eq_refl eq_refl).
Defined.

